(** * SmartSession (scraping/smart_session.py): retry, backoff and timeout policy

    A shallow embedding of [SmartSession] and of its nested
    [TimeoutHTTPAdapter], together with the part of the transport they
    configure: [urllib3.util.Retry] and the attempt loop of
    [HTTPConnectionPool.urlopen] (urllib3 1.26, the last series that
    accepts the [method_whitelist] keyword the session passes), as reached
    through [requests.adapters.HTTPAdapter.send].

    Conventions.
    - Python [None] is [None : option _]; an argument that was not passed
      is [None] as well, because every parameter of [__init__] defaults to
      [None].
    - Durations (seconds) and the backoff factor are exact rationals [Q];
      Python computes them in binary floating point, so [0.3] stands for
      the decimal literal of the source.
    - Integers are [Z], method names and header values are [string]. *)

From Stdlib Require Import ZArith QArith Qminmax Bool List String Ascii Lia Lqa.
Import ListNotations.

Local Open Scope string_scope.
Local Open Scope Z_scope.

(** ** Python values: truthiness and [x or default] *)

Module Py.

(** [bool(x)] for the kinds of values the constructor receives. *)
Class Truthy (A : Type) := truthy : A -> bool.

#[global] Instance Truthy_Z : Truthy Z := fun n => negb (n =? 0).
#[global] Instance Truthy_Q : Truthy Q := fun q => negb (Qeq_bool q 0%Q).
#[global] Instance Truthy_string : Truthy string :=
  fun s => match s with EmptyString => false | String _ _ => true end.
#[global] Instance Truthy_list {A} : Truthy (list A) :=
  fun l => match l with [] => false | _ :: _ => true end.

(** [bool(x)] when [x] may be [None]. *)
Definition truthy_opt {A} `{Truthy A} (x : option A) : bool :=
  match x with
  | Some v => truthy v
  | None => false
  end.

(** [x or d] where [x] may be [None]: [None] and every falsy value give
    [d], a truthy value gives itself. *)
Definition or_default {A} `{Truthy A} (x : option A) (d : A) : A :=
  match x with
  | Some v => if truthy v then v else d
  | None => d
  end.

(** [str.upper()] as it acts on an ASCII string.  Python's own also maps
    some letters outside ASCII to ASCII capitals, so the properties that
    depend on the name of a method take that name ASCII ([is_ascii]
    below). *)
Definition upper_ascii (c : ascii) : ascii :=
  let n := nat_of_ascii c in
  if (97 <=? n)%nat && (n <=? 122)%nat then ascii_of_nat (n - 32) else c.

Fixpoint upper (s : string) : string :=
  match s with
  | EmptyString => EmptyString
  | String c s' => String (upper_ascii c) (upper s')
  end.

(** [x in l] for a list of integers and for a list of strings. *)
Definition in_Z (x : Z) (l : list Z) : bool := existsb (Z.eqb x) l.
Definition in_str (x : string) (l : list string) : bool :=
  existsb (String.eqb x) l.

End Py.

(** ** Errors and exceptions *)

(** What an attempt can fail with below HTTP, by the urllib3 class that
    reaches the retry logic.  [NewConnectionError] (connection refused,
    name resolution) is a subclass of [ConnectTimeoutError]; a reset or an
    aborted connection arrives as [ProtocolError]. *)
Inductive error :=
| ConnectTimeoutError
| NewConnectionError
| ReadTimeoutError
| ProtocolError
| SSLError.

(** The [cause] of a [ResponseError]. *)
Inductive cause :=
| unknown
| too_many_redirects
| GENERIC_ERROR
| SPECIFIC_ERROR (status_code : Z).

(** [MaxRetryError.reason]: [error or ResponseError(cause)]. *)
Inductive reason :=
| ReasonError (e : error)
| ResponseError (c : cause).

Inductive exn :=
| ValueError (msg : string)
| MaxRetryError (r : reason)
| Reraised (e : error).

(** A call either returns or raises. *)
Inductive result (A : Type) :=
| Ok (a : A)
| Raise (x : exn).
Arguments Ok {A} a.
Arguments Raise {A} x.

Definition bind {A B} (m : result A) (k : A -> result B) : result B :=
  match m with
  | Ok a => k a
  | Raise x => Raise x
  end.

Notation "x <- m ;; k" := (bind m (fun x => k))
  (at level 61, m at next level, right associativity).

(** ** The response as the retry logic sees it *)

Module HTTPResponse.

(** [status] is the status code; [retry_after] is the [Retry-After]
    header, [None] when the response has none and [Some d] when it has
    one that [Retry.parse_retry_after] reads as [d] seconds; [location]
    is the [Location] header.  A response whose [Retry-After] is empty
    or does not parse is not a value of this type: on such a response
    [Retry.sleep] raises [InvalidHeader]. *)
Record t := mk {
  status : Z;
  retry_after : option Q;
  location : option string
}.

Definition REDIRECT_STATUSES : list Z := [301; 302; 303; 307; 308].

(** [get_redirect_location]: the location for a redirect status, [None]
    or [False] otherwise; only its truthiness and its being recorded in
    the history matter here, so [False] is [None]. *)
Definition get_redirect_location (r : t) : option string :=
  if Py.in_Z (status r) REDIRECT_STATUSES then location r else None.

(** [bool(response.headers.get("Retry-After"))] *)
Definition has_retry_after (r : t) : bool :=
  match retry_after r with Some _ => true | None => false end.

End HTTPResponse.

(** ** [urllib3.util.Retry] (1.26) *)

Module Retry.

(** One entry of [Retry.history]. *)
Record RequestHistory := mkHistory {
  h_method : string;
  h_error : option error;
  h_status : option Z;
  h_redirect_location : option string
}.

(** The counters are [None] or an integer; the session never passes
    [False].  [history] is kept oldest first, as the tuple is. *)
Record t := mk {
  total : option Z;
  connect : option Z;
  read : option Z;
  redirect : option Z;
  status : option Z;
  other : option Z;
  allowed_methods : list string;
  status_forcelist : list Z;
  backoff_factor : Q;
  raise_on_status : bool;
  respect_retry_after_header : bool;
  history : list RequestHistory
}.

Definition DEFAULT_ALLOWED_METHODS : list string :=
  ["HEAD"; "GET"; "PUT"; "DELETE"; "OPTIONS"; "TRACE"].

Definition RETRY_AFTER_STATUS_CODES : list Z := [413; 429; 503].

(** Maximum backoff time, in seconds. *)
Definition DEFAULT_BACKOFF_MAX : Q := 120%Q.

(** [Retry.__init__], with the keywords the session uses and the two
    method keywords that exclude each other; every other keyword keeps
    its default ([redirect], [status], [other] are [None],
    [raise_on_status] and [respect_retry_after_header] are [True]). *)
Definition __init__ (total connect read : option Z) (backoff_factor : Q)
    (status_forcelist : option (list Z))
    (allowed_methods method_whitelist : option (list string)) : result t :=
  allowed <-
    match method_whitelist with
    | Some mw =>
        match allowed_methods with
        | Some _ =>
            Raise (ValueError
              "Using both 'allowed_methods' and 'method_whitelist' together is not allowed. Instead only use 'allowed_methods'")
        | None => Ok mw
        end
    | None =>
        Ok (match allowed_methods with
            | Some am => am
            | None => DEFAULT_ALLOWED_METHODS
            end)
    end ;;
  Ok {| total := total;
        connect := connect;
        read := read;
        redirect := None;
        status := None;
        other := None;
        allowed_methods := allowed;
        status_forcelist := Py.or_default status_forcelist [];
        backoff_factor := backoff_factor;
        raise_on_status := true;
        respect_retry_after_header := true;
        history := [] |}.

(** [len(list(takewhile(lambda x: x.redirect_location is None,
    reversed(self.history))))] *)
Fixpoint takewhile_no_redirect (l : list RequestHistory) : list RequestHistory :=
  match l with
  | [] => []
  | x :: l' =>
      match h_redirect_location x with
      | None => x :: takewhile_no_redirect l'
      | Some _ => []
      end
  end.

Definition consecutive_errors_len (self : t) : nat :=
  List.length (takewhile_no_redirect (rev (history self))).

(** [backoff_factor * (2 ** (consecutive_errors_len - 1))], capped, on
    exact rationals.  With a float factor Python raises [OverflowError]
    once [2 ** (consecutive_errors_len - 1)] leaves the range of floats,
    that is from 1025 consecutive failures on; the properties that state
    the length of a backoff keep below that. *)
Definition get_backoff_time (self : t) : Q :=
  let n := consecutive_errors_len self in
  if (n <=? 1)%nat then 0%Q
  else
    let backoff_value :=
      (backoff_factor self * inject_Z (2 ^ (Z.of_nat n - 1)))%Q in
    Qmin DEFAULT_BACKOFF_MAX backoff_value.

(** [parse_retry_after] clamps a negative delay to zero;
    [get_retry_after] is [None] without the header. *)
Definition get_retry_after (response : HTTPResponse.t) : option Q :=
  match HTTPResponse.retry_after response with
  | None => None
  | Some seconds => Some (if negb (Qle_bool 0 seconds) then 0%Q else seconds)
  end.

(** The three sleeping functions return the time passed to
    [time.sleep], [0] when they return without sleeping. *)
Definition sleep_for_retry (self : t) (response : HTTPResponse.t) : bool * Q :=
  match get_retry_after response with
  | Some retry_after =>
      if Py.truthy retry_after then (true, retry_after) else (false, 0%Q)
  | None => (false, 0%Q)
  end.

Definition _sleep_backoff (self : t) : Q :=
  let backoff := get_backoff_time self in
  if Qle_bool backoff 0 then 0%Q else backoff.

Definition sleep (self : t) (response : option HTTPResponse.t) : Q :=
  match response with
  | Some r =>
      if respect_retry_after_header self then
        let (slept, d) := sleep_for_retry self r in
        if slept then d else _sleep_backoff self
      else _sleep_backoff self
  | None => _sleep_backoff self
  end.

Definition _is_connection_error (err : error) : bool :=
  match err with
  | ConnectTimeoutError | NewConnectionError => true
  | _ => false
  end.

Definition _is_read_error (err : error) : bool :=
  match err with
  | ReadTimeoutError | ProtocolError => true
  | _ => false
  end.

Definition _is_method_retryable (self : t) (method : string) : bool :=
  if Py.truthy (allowed_methods self)
     && negb (Py.in_str (Py.upper method) (allowed_methods self))
  then false
  else true.

Definition is_retry (self : t) (method : string) (status_code : Z)
    (has_retry_after : bool) : bool :=
  if negb (_is_method_retryable self method) then false
  else if Py.truthy (status_forcelist self)
          && Py.in_Z status_code (status_forcelist self) then true
  else Py.truthy_opt (total self)
       && respect_retry_after_header self
       && has_retry_after
       && Py.in_Z status_code RETRY_AFTER_STATUS_CODES.

(** [list(filter(None, retry_counts))]: drops [None] and [0]. *)
Fixpoint filter_counts (l : list (option Z)) : list Z :=
  match l with
  | [] => []
  | Some n :: l' => if Py.truthy n then n :: filter_counts l' else filter_counts l'
  | None :: l' => filter_counts l'
  end.

Definition is_exhausted (self : t) : bool :=
  let retry_counts :=
    filter_counts [total self; connect self; read self;
                   redirect self; status self; other self] in
  match retry_counts with
  | [] => false
  | c :: cs => fold_left Z.min cs c <? 0
  end.

Definition decr (c : option Z) : option Z := option_map (fun n => n - 1) c.

(** [increment]: the new [Retry], or [MaxRetryError], or the error
    raised again.  [response] and [error] are the two keywords of which
    the caller passes one. *)
Definition increment (self : t) (method : string)
    (response : option HTTPResponse.t) (err : option error) : result t :=
  let total' := decr (total self) in
  let finish connect' read' redirect' status_count other'
             (c : cause) (st : option Z) (redirect_location : option string) :=
    let new_retry :=
      {| total := total';
         connect := connect';
         read := read';
         redirect := redirect';
         status := status_count;
         other := other';
         allowed_methods := allowed_methods self;
         status_forcelist := status_forcelist self;
         backoff_factor := backoff_factor self;
         raise_on_status := raise_on_status self;
         respect_retry_after_header := respect_retry_after_header self;
         history := (history self
                     ++ [mkHistory method err st redirect_location])%list |} in
    if is_exhausted new_retry then
      Raise (MaxRetryError
               (match err with
                | Some e => ReasonError e
                | None => ResponseError c
                end))
    else Ok new_retry in
  let unchanged := finish (connect self) (read self) (redirect self)
                          (status self) (other self) in
  match err with
  | Some e =>
      if _is_connection_error e then
        finish (decr (connect self)) (read self) (redirect self)
               (status self) (other self) unknown None None
      else if _is_read_error e then
        if negb (_is_method_retryable self method) then Raise (Reraised e)
        else finish (connect self) (decr (read self)) (redirect self)
                    (status self) (other self) unknown None None
      else
        finish (connect self) (read self) (redirect self)
               (status self) (decr (other self)) unknown None None
  | None =>
      match response with
      | Some r =>
          match HTTPResponse.get_redirect_location r with
          | Some loc =>
              if Py.truthy loc then
                finish (connect self) (read self) (decr (redirect self))
                       (status self) (other self) too_many_redirects
                       (Some (HTTPResponse.status r)) (Some loc)
              else if Py.truthy (HTTPResponse.status r) then
                finish (connect self) (read self) (redirect self)
                       (decr (status self)) (other self)
                       (SPECIFIC_ERROR (HTTPResponse.status r))
                       (Some (HTTPResponse.status r)) None
              else unchanged GENERIC_ERROR None None
          | None =>
              if Py.truthy (HTTPResponse.status r) then
                finish (connect self) (read self) (redirect self)
                       (decr (status self)) (other self)
                       (SPECIFIC_ERROR (HTTPResponse.status r))
                       (Some (HTTPResponse.status r)) None
              else unchanged GENERIC_ERROR None None
          end
      | None => unchanged GENERIC_ERROR None None
      end
  end.

End Retry.

(** ** The attempt loop: [HTTPConnectionPool.urlopen] *)

(** What one attempt meets: a response, or a failure below HTTP. *)
Inductive outcome :=
| Responds (r : HTTPResponse.t)
| Fails (e : error).

(** The far end, as a function of the number of attempts already made. *)
Definition server := nat -> outcome.

(** What the caller of one logical request observes: the value returned
    or the exception raised, the number of attempts made, and the time
    slept after each failed attempt that was followed by another. *)
Record run := mkRun {
  returned : result HTTPResponse.t;
  attempts : nat;
  waits : list Q
}.

(** [urlopen] called by [HTTPAdapter.send], hence with [redirect=False]:
    the redirect branch of the body is dead and left out.  The source
    retries by calling itself, one call inside the other, on nothing
    that decreases syntactically: the loop takes a bound on the number
    of attempts, which is the depth of calls the interpreter still
    allows, and answers [None] when the bound is reached, where Python
    raises [RecursionError]. *)
Fixpoint urlopen (fuel : nat) (srv : server) (method : string)
    (retries : Retry.t) (made : nat) (slept : list Q) : option run :=
  match fuel with
  | O => None
  | S fuel' =>
      match srv made with
      | Fails e =>
          match Retry.increment retries method None (Some e) with
          | Raise x => Some (mkRun (Raise x) (S made) slept)
          | Ok retries' =>
              urlopen fuel' srv method retries' (S made)
                      (slept ++ [Retry.sleep retries' None])%list
          end
      | Responds response =>
          if Retry.is_retry retries method (HTTPResponse.status response)
                            (HTTPResponse.has_retry_after response)
          then
            match Retry.increment retries method (Some response) None with
            | Raise (MaxRetryError r) =>
                if Retry.raise_on_status retries
                then Some (mkRun (Raise (MaxRetryError r)) (S made) slept)
                else Some (mkRun (Ok response) (S made) slept)
            | Raise x => Some (mkRun (Raise x) (S made) slept)
            | Ok retries' =>
                urlopen fuel' srv method retries' (S made)
                        (slept ++ [Retry.sleep retries' (Some response)])%list
            end
          else Some (mkRun (Ok response) (S made) slept)
      end
  end.

(** Attempts that a [Retry] can still pay for: one more than its
    [total], and one when [total] is not positive. *)
Definition budget (retries : Retry.t) : nat :=
  match Retry.total retries with
  | Some n => S (Z.to_nat n)
  | None => 0
  end.

(** ** [SmartSession.TimeoutHTTPAdapter] *)

Module TimeoutHTTPAdapter.

(** Timeout in seconds *)
Definition TIMEOUT : Q := 5%Q.

(** The keyword arguments of [__init__]: [kw_timeout] is [None] when the
    key ["timeout"] is absent and [Some v] when it is present with value
    [v], which may itself be Python's [None]. *)
Record kwargs := mkKwargs {
  kw_timeout : option (option Q);
  kw_max_retries : Retry.t
}.

Record t := mk {
  timeout : option Q;
  max_retries : Retry.t
}.

(** [__init__]: the key test is on presence.  [HTTPAdapter.__init__]
    keeps a [Retry] passed as [max_retries] as it is. *)
Definition __init__ (kw : kwargs) : t :=
  {| timeout :=
       match kw_timeout kw with
       | Some v => v
       | None => Some TIMEOUT
       end;
     max_retries := kw_max_retries kw |}.

(** The first three lines of [send]: the timeout handed to
    [HTTPAdapter.send], given the ["timeout"] keyword of the call
    ([Session.request] always passes the key, [None] when the caller
    gave no timeout). *)
Definition send_timeout (self : t) (call_timeout : option Q) : option Q :=
  match call_timeout with
  | None => timeout self
  | Some v => Some v
  end.

(** [send] without what [super().send] does around the attempt loop:
    the timeout handed to [super().send], and the run of the loop that
    [super().send] starts once it has accepted the timeout.  The check
    of the timeout and the translation of the exceptions are in
    [HTTPAdapter.send] below. *)
Definition send (self : t) (method : string) (call_timeout : option Q)
    (srv : server) : option Q * option run :=
  (send_timeout self call_timeout,
   urlopen (budget (max_retries self)) srv method (max_retries self) 0 []).

End TimeoutHTTPAdapter.

(** ** [SmartSession] *)

Module SmartSession.

Definition NUM_RETRIES : Z := 5.

Definition BACKOFF_FACTOR : Q := 0.3%Q.

Definition STATUS_FORCELIST : list Z := [429; 500; 502; 503; 504].

Definition METHOD_WHITELIST : list string :=
  ["HEAD"; "GET"; "PUT"; "POST"; "DELETE"; "OPTIONS"; "TRACE"].

Definition USER_AGENT : string :=
  "Mozilla/5.0 (Windows NT 6.1; WOW64) AppleWebKit/537.36 (KHTML, like Gecko) Chrome/56.0.2924.76 Safari/537.36".

(** The arguments of the constructor; each defaults to [None]. *)
Record args := mkArgs {
  a_num_retries : option Z;
  a_backoff_factor : option Q;
  a_status_forcelist : option (list Z);
  a_method_whitelist : option (list string);
  a_timeout : option Q;
  a_user_agent : option string
}.

Definition no_args : args := mkArgs None None None None None None.

Record t := mk {
  num_retries : Z;
  backoff_factor : Q;
  status_forcelist : list Z;
  method_whitelist : list string;
  timeout : option Q;
  user_agent : string;
  adapter : option TimeoutHTTPAdapter.t;
  adapters : list (string * TimeoutHTTPAdapter.t);
  headers : list (string * string)
}.

(** [dict.update] with one key, on an association list. *)
Fixpoint update {V} (d : list (string * V)) (k : string) (v : V)
    : list (string * V) :=
  match d with
  | [] => [(k, v)]
  | (k', v') :: d' =>
      if String.eqb k' k then (k, v) :: d' else (k', v') :: update d' k v
  end.

Fixpoint get {V} (d : list (string * V)) (k : string) : option V :=
  match d with
  | [] => None
  | (k', v') :: d' => if String.eqb k' k then Some v' else get d' k
  end.

(** [init_all].  [mount] and [headers.update] are [update] below;
    requests spells the key of its default header ["User-Agent"] too. *)
Definition init_all (self : t) : result t :=
  retry <- Retry.__init__ (Some (num_retries self)) (Some (num_retries self))
                      (Some (num_retries self)) (backoff_factor self)
                      (Some (status_forcelist self)) None
                      (Some (method_whitelist self)) ;;
  let adapter :=
    TimeoutHTTPAdapter.__init__
      (TimeoutHTTPAdapter.mkKwargs (Some (timeout self)) retry) in
  Ok {| num_retries := num_retries self;
        backoff_factor := backoff_factor self;
        status_forcelist := status_forcelist self;
        method_whitelist := method_whitelist self;
        timeout := timeout self;
        user_agent := user_agent self;
        adapter := Some adapter;
        adapters := update (update (adapters self) "http://" adapter)
                           "https://" adapter;
        headers := update (headers self) "User-Agent" (user_agent self) |}.

Section Init.

(** What [Session.__init__] leaves in [self.headers], the default headers
    of requests. *)
Variable default_headers : list (string * string).

(** [__init__].  The adapters that [Session.__init__] mounts under
    ["https://"] and ["http://"] are replaced by [init_all] before any
    request, so [adapters] starts empty here. *)
Definition __init__ (a : args) : result t :=
  init_all
    {| num_retries := Py.or_default (a_num_retries a) NUM_RETRIES;
       backoff_factor := Py.or_default (a_backoff_factor a) BACKOFF_FACTOR;
       status_forcelist := Py.or_default (a_status_forcelist a) STATUS_FORCELIST;
       method_whitelist := Py.or_default (a_method_whitelist a) METHOD_WHITELIST;
       timeout := a_timeout a;
       user_agent := Py.or_default (a_user_agent a) USER_AGENT;
       adapter := None;
       adapters := [];
       headers := default_headers |}.

End Init.

(** One send through the adapter that the session has mounted for
    [prefix] (["http://"] or ["https://"]), as [TimeoutHTTPAdapter.send]
    above gives it: the timeout handed on and the run of the attempt
    loop.  The answer is [None] when no adapter of the session is
    mounted there, which is the case only before [init_all] has run.
    What requests does around this send (the check of the timeout, its
    own exception classes, the following of a redirect) is in
    [Session.request] below. *)
Definition request (self : t) (prefix method : string)
    (call_timeout : option Q) (srv : server)
    : option (option Q * option run) :=
  match get (adapters self) prefix with
  | Some ad => Some (TimeoutHTTPAdapter.send ad method call_timeout srv)
  | None => None
  end.

End SmartSession.

(** ** requests, around the attempt loop *)

Module Requests.

(** What the caller of the session can be raised: the exceptions of
    requests, [ValueError] of the timeout check, and an error of urllib3
    that requests raises again as it is. *)
Inductive exception :=
| ValueError
| InvalidSchema
| RetryError (c : cause)
| ConnectTimeout
| ConnectionError
| ReadTimeout
| SSLError
| Urllib3Error (e : error).

End Requests.

(** What one send of the session ends with: the response returned, or a
    redirect that the session follows, or an exception.  When it follows
    a redirect, the session goes on to a further request to [target],
    with its own retries; what the caller gets in the end is decided
    there and is not modelled. *)
Inductive answer :=
| Returns (resp : HTTPResponse.t)
| Follows (resp : HTTPResponse.t) (target : string)
| Raises (x : Requests.exception).

(** One send as a whole: its answer, the number of attempts made and the
    time slept between them; or [RecursionError], when the retries nest
    deeper than the interpreter allows. *)
Inductive sent :=
| Done (a : answer) (made : nat) (slept : list Q)
| RecursionError.

Module HTTPAdapter.

(** [TimeoutSauce(connect=timeout, read=timeout)], that is
    [Timeout._validate_timeout]: [None] is accepted, a number that is
    not positive raises [ValueError]. *)
Definition valid_timeout (timeout : option Q) : bool :=
  match timeout with
  | None => true
  | Some value => negb (Qle_bool value 0)
  end.

(** The [except] clauses of [send], in their order: [ProtocolError]
    first, then [MaxRetryError] by its reason, then [SSLError] and
    [ReadTimeoutError]; anything else is raised again as it is. *)
Definition translate (x : exn) : Requests.exception :=
  match x with
  | ValueError _ => Requests.ValueError
  | MaxRetryError (ResponseError c) => Requests.RetryError c
  | MaxRetryError (ReasonError ConnectTimeoutError) => Requests.ConnectTimeout
  | MaxRetryError (ReasonError SSLError) => Requests.SSLError
  | MaxRetryError (ReasonError _) => Requests.ConnectionError
  | Reraised ProtocolError => Requests.ConnectionError
  | Reraised ReadTimeoutError => Requests.ReadTimeout
  | Reraised SSLError => Requests.SSLError
  | Reraised e => Requests.Urllib3Error e
  end.

(** [send]: the timeout is checked before anything is sent; then the
    attempt loop runs, with [depth] nested calls at most, and its
    exceptions are translated. *)
Definition send (depth : nat) (max_retries : Retry.t) (method : string)
    (timeout : option Q) (srv : server) : sent :=
  if valid_timeout timeout then
    match urlopen depth srv method max_retries 0 [] with
    | Some r =>
        Done (match returned r with
              | Ok resp => Returns resp
              | Raise x => Raises (translate x)
              end)
             (attempts r) (waits r)
    | None => RecursionError
    end
  else Done (Raises Requests.ValueError) 0 [].

End HTTPAdapter.

(** [requests.sessions.Session], which [SmartSession] inherits its
    request methods from. *)
Module Session.

Definition REDIRECT_STATI : list Z := [301; 302; 303; 307; 308].

(** [get_redirect_target]: the [Location] of a response that
    [is_redirect]. *)
Definition get_redirect_target (resp : HTTPResponse.t) : option string :=
  match HTTPResponse.location resp with
  | Some location =>
      if Py.in_Z (HTTPResponse.status resp) REDIRECT_STATI
      then Some location
      else None
  | None => None
  end.

(** Whether [send] goes on to a further request: [allow_redirects], and
    a target that is not empty ([while url:]). *)
Definition follows (allow_redirects : bool) (resp : HTTPResponse.t) : bool :=
  allow_redirects && Py.truthy_opt (get_redirect_target resp).

(** [send], after the adapter has sent: a response is returned, unless
    it is a redirect to follow. *)
Definition send (allow_redirects : bool) (r : sent) : sent :=
  match r with
  | Done (Returns resp) made slept =>
      match get_redirect_target resp with
      | Some target =>
          if follows allow_redirects resp
          then Done (Follows resp target) made slept
          else r
      | None => r
      end
  | _ => r
  end.

(** [request], on a session: the method is put in capitals
    ([prepare_method]), the adapter of the prefix is looked up
    ([get_adapter], [InvalidSchema] without one), and
    [TimeoutHTTPAdapter.send] hands the timeout of its first three
    lines to [HTTPAdapter.send].  [allow_redirects] is [True] for every
    request method but [head], unless the call says otherwise; [depth]
    is the number of nested calls of [urlopen] the interpreter allows. *)
Definition request (self : SmartSession.t) (prefix method : string)
    (call_timeout : option Q) (allow_redirects : bool) (depth : nat)
    (srv : server) : sent :=
  match SmartSession.get (SmartSession.adapters self) prefix with
  | Some ad =>
      send allow_redirects
        (HTTPAdapter.send depth (TimeoutHTTPAdapter.max_retries ad)
           (Py.upper method)
           (TimeoutHTTPAdapter.send_timeout ad call_timeout) srv)
  | None => Done (Raises Requests.InvalidSchema) 0 []
  end.

End Session.

(** ** Vocabulary of the properties *)

(** A server that gives the same outcome to every attempt. *)
Definition always (o : outcome) : server := fun _ => o.

(** The time slept before the attempt that follows [k] consecutive
    failed ones, for a backoff factor [bf]: nothing after the first
    failure, then [bf * 2^(k-1)] capped at [DEFAULT_BACKOFF_MAX], and
    nothing when that is not positive. *)
Definition backoff_wait (bf : Q) (k : nat) : Q :=
  if (k <=? 1)%nat then 0%Q
  else
    let b := Qmin Retry.DEFAULT_BACKOFF_MAX
                  (bf * inject_Z (2 ^ (Z.of_nat k - 1)))%Q in
    if Qle_bool b 0 then 0%Q else b.

(** The backoff formula as the specification words it:
    [backoffFactor * 2^(attemptIndex - 1)] from index 1 on, [0] at
    index 0. *)
Definition backoffDuration_spec (backoffFactor : Q) (attemptIndex : nat) : Q :=
  match attemptIndex with
  | O => 0%Q
  | S i => (backoffFactor * inject_Z (2 ^ Z.of_nat i))%Q
  end.



(** The [Retry] that [init_all] builds from the attributes of a session. *)
Definition retry_of (s : SmartSession.t) : Retry.t :=
  {| Retry.total := Some (SmartSession.num_retries s);
     Retry.connect := Some (SmartSession.num_retries s);
     Retry.read := Some (SmartSession.num_retries s);
     Retry.redirect := None;
     Retry.status := None;
     Retry.other := None;
     Retry.allowed_methods := SmartSession.method_whitelist s;
     Retry.status_forcelist :=
       Py.or_default (Some (SmartSession.status_forcelist s)) [];
     Retry.backoff_factor := SmartSession.backoff_factor s;
     Retry.raise_on_status := true;
     Retry.respect_retry_after_header := true;
     Retry.history := [] |}.

(** The two prefixes under which [init_all] mounts the adapter. *)
Definition mounted (prefix : string) : Prop :=
  prefix = "http://" \/ prefix = "https://".

(** The timeout a request is sent with. *)
Definition effective_timeout (s : SmartSession.t) (call_timeout : option Q)
    : option Q :=
  match call_timeout with
  | None => SmartSession.timeout s
  | Some v => Some v
  end.

(** The [Retry] of a session in the middle of a request: [t] retries
    left of [n], and the history [h]. *)
Definition retry_state (n : Z) (am : list string) (sf : list Z) (bf : Q)
    (t : Z) (h : list Retry.RequestHistory) : Retry.t :=
  Retry.mk (Some t) (Some n) (Some n) None None None am sf bf true true h.

(** A string of ASCII characters. *)
Fixpoint is_ascii (s : string) : bool :=
  match s with
  | EmptyString => true
  | String c s' => (nat_of_ascii c <? 128)%nat && is_ascii s'
  end.




(** ** The attributes that the module assigns *)

(** The objects of the process that matter here, and the attributes
    assigned on them.  [HTTPConnection] is the class object of
    [http.client]; a [connection] is an instance of it, made by the
    transport or by any other code of the process. *)
Module Heap.

Inductive obj :=
| HTTPConnection
| connection (i : nat)
| session (i : nat)
| adapter (i : nat)
| retry (i : nat)
| kwargs (i : nat).

Inductive value :=
| VNone
| VInt (z : Z)
| VNum (q : Q)
| VStr (s : string)
| VInts (l : list Z)
| VStrs (l : list string)
| VRef (o : obj)
| VHeaders (d : list (string * string))
| VMounts (d : list (string * obj)).

Definition obj_eqb (a b : obj) : bool :=
  match a, b with
  | HTTPConnection, HTTPConnection => true
  | connection i, connection j => Nat.eqb i j
  | session i, session j => Nat.eqb i j
  | adapter i, adapter j => Nat.eqb i j
  | retry i, retry j => Nat.eqb i j
  | kwargs i, kwargs j => Nat.eqb i j
  | _, _ => false
  end.

(** An assignment [o.a = v]. *)
Definition assignment := (obj * string * value)%type.

(** The assignments made so far, the latest first. *)
Definition t := list assignment.

(** The attribute [a] in the object [o] itself. *)
Fixpoint read (h : t) (o : obj) (a : string) : option value :=
  match h with
  | [] => None
  | (o', a', v) :: h' =>
      if obj_eqb o' o && String.eqb a' a then Some v else read h' o a
  end.

Definition write (h : t) (w : assignment) : t := w :: h.

Definition writes (h : t) (ws : list assignment) : t := fold_left write ws h.

(** [o.a] as Python looks it up: in the instance, then in its class. *)
Definition getattr (h : t) (o : obj) (a : string) : option value :=
  match read h o a with
  | Some v => Some v
  | None =>
      match o with
      | connection _ => read h HTTPConnection a
      | _ => None
      end
  end.

End Heap.

Definition of_timeout (timeout : option Q) : Heap.value :=
  match timeout with
  | Some q => Heap.VNum q
  | None => Heap.VNone
  end.

Definition of_count (c : option Z) : Heap.value :=
  match c with
  | Some z => Heap.VInt z
  | None => Heap.VNone
  end.

(** Line 11, run when the module is imported. *)
Definition import_writes : list Heap.assignment :=
  [(Heap.HTTPConnection, "debuglevel", Heap.VInt 1)].

(** [Retry.__init__] on the object [r]. *)
Definition retry_init_writes (r : nat) (x : Retry.t) : list Heap.assignment :=
  [(Heap.retry r, "total", of_count (Retry.total x));
   (Heap.retry r, "connect", of_count (Retry.connect x));
   (Heap.retry r, "read", of_count (Retry.read x));
   (Heap.retry r, "status_forcelist", Heap.VInts (Retry.status_forcelist x));
   (Heap.retry r, "allowed_methods", Heap.VStrs (Retry.allowed_methods x));
   (Heap.retry r, "backoff_factor", Heap.VNum (Retry.backoff_factor x))].

(** [TimeoutHTTPAdapter.__init__] on the object [self]: lines 63 and
    65, then [max_retries] in [super().__init__]. *)
Definition adapter_init_writes (self r : nat) (kw : TimeoutHTTPAdapter.kwargs)
    : list Heap.assignment :=
  ((Heap.adapter self, "timeout", Heap.VNum TimeoutHTTPAdapter.TIMEOUT)
   :: match TimeoutHTTPAdapter.kw_timeout kw with
      | Some v => [(Heap.adapter self, "timeout", of_timeout v)]
      | None => []
      end)
  ++ [(Heap.adapter self, "max_retries", Heap.VRef (Heap.retry r))].

(** [init_all] on the session object [self], [k] naming the [Retry] and
    the adapter it makes; [s] is the session it returns. *)
Definition init_all_writes (self k : nat) (s : SmartSession.t)
    : list Heap.assignment :=
  retry_init_writes k (retry_of s)
  ++ adapter_init_writes k k
       (TimeoutHTTPAdapter.mkKwargs (Some (SmartSession.timeout s))
                                    (retry_of s))
  ++ [(Heap.session self, "adapter", Heap.VRef (Heap.adapter k));
      (Heap.session self, "adapters",
       Heap.VMounts (map (fun p => (fst p, Heap.adapter k))
                         (SmartSession.adapters s)));
      (Heap.session self, "headers", Heap.VHeaders (SmartSession.headers s))].

(** [SmartSession.__init__] on the session object [self]: lines 84 to
    90, the attributes that [super().__init__()] sets, then
    [init_all]. *)
Definition init_writes (default_headers : list (string * string))
    (self k : nat) (s : SmartSession.t) : list Heap.assignment :=
  [(Heap.session self, "num_retries", Heap.VInt (SmartSession.num_retries s));
   (Heap.session self, "backoff_factor",
    Heap.VNum (SmartSession.backoff_factor s));
   (Heap.session self, "status_forcelist",
    Heap.VInts (SmartSession.status_forcelist s));
   (Heap.session self, "method_whitelist",
    Heap.VStrs (SmartSession.method_whitelist s));
   (Heap.session self, "timeout", of_timeout (SmartSession.timeout s));
   (Heap.session self, "user_agent", Heap.VStr (SmartSession.user_agent s));
   (Heap.session self, "adapter", Heap.VNone);
   (Heap.session self, "headers", Heap.VHeaders default_headers);
   (Heap.session self, "adapters", Heap.VMounts [])]
  ++ init_all_writes self k s.

(** [TimeoutHTTPAdapter.send]: line 72 assigns in the [kwargs] of the
    call, and only when the call gave no timeout. *)
Definition send_writes (k : nat) (ad : TimeoutHTTPAdapter.t)
    (call_timeout : option Q) : list Heap.assignment :=
  match call_timeout with
  | None => [(Heap.kwargs k, "timeout", of_timeout (TimeoutHTTPAdapter.timeout ad))]
  | Some _ => []
  end.

(** [HTTPConnection.__init__] on a connection that the transport makes
    for an attempt, with the timeout it was handed: of its assignments,
    those to [timeout], [sock] and [_method].  Neither it nor anything
    else in requests and urllib3 assigns [debuglevel]; in [http.client]
    only [set_debuglevel] does, which none of them calls. *)
Definition connection_init_writes (c : nat) (timeout : option Q)
    : list Heap.assignment :=
  [(Heap.connection c, "timeout", of_timeout timeout);
   (Heap.connection c, "sock", Heap.VNone);
   (Heap.connection c, "_method", Heap.VNone)].

(** The process as the module sees it: the attributes assigned, the
    sessions built, and the next name for a new object. *)
Record world := mkWorld {
  heap : Heap.t;
  sessions : list SmartSession.t;
  next : nat
}.

Inductive operation :=
| Construct (a : SmartSession.args)
| InitAll (i : nat)
| Request (i : nat) (prefix : string) (call_timeout : option Q).

Fixpoint replace_nth {A} (l : list A) (i : nat) (x : A) : list A :=
  match l, i with
  | [], _ => []
  | _ :: l', O => x :: l'
  | y :: l', S i' => y :: replace_nth l' i' x
  end.

Section Exec.

Variable default_headers : list (string * string).

(** The assignments of one operation; none when it is called on a
    session that does not exist or when it raises.  A request assigns in
    the keywords of the call and, once its timeout is accepted, on the
    connection made for it. *)
Definition op_writes (w : world) (op : operation) : list Heap.assignment :=
  match op with
  | Construct a =>
      match SmartSession.__init__ default_headers a with
      | Ok s => init_writes default_headers (List.length (sessions w)) (next w) s
      | Raise _ => []
      end
  | InitAll i =>
      match nth_error (sessions w) i with
      | Some s =>
          match SmartSession.init_all s with
          | Ok s' => init_all_writes i (next w) s'
          | Raise _ => []
          end
      | None => []
      end
  | Request i prefix call_timeout =>
      match nth_error (sessions w) i with
      | Some s =>
          match SmartSession.get (SmartSession.adapters s) prefix with
          | Some ad =>
              send_writes (next w) ad call_timeout
              ++ (if HTTPAdapter.valid_timeout
                       (TimeoutHTTPAdapter.send_timeout ad call_timeout)
                  then connection_init_writes (next w)
                         (TimeoutHTTPAdapter.send_timeout ad call_timeout)
                  else [])
          | None => []
          end
      | None => []
      end
  end.

Definition exec (w : world) (op : operation) : world :=
  {| heap := Heap.writes (heap w) (op_writes w op);
     sessions :=
       match op with
       | Construct a =>
           match SmartSession.__init__ default_headers a with
           | Ok s => (sessions w ++ [s])%list
           | Raise _ => sessions w
           end
       | InitAll i =>
           match nth_error (sessions w) i with
           | Some s =>
               match SmartSession.init_all s with
               | Ok s' => replace_nth (sessions w) i s'
               | Raise _ => sessions w
               end
           | None => sessions w
           end
       | Request _ _ _ => sessions w
       end;
     next := S (next w) |}.

(** The module is imported into a process, then the operations run in
    order. *)
Definition run_module (h : Heap.t) (ops : list operation) : world :=
  fold_left exec ops (mkWorld (Heap.writes h import_writes) [] 0).

End Exec.

(** Whether a connection prints what it sends and receives
    ([if self.debuglevel > 0]). *)
Definition debug_on (h : Heap.t) (c : Heap.obj) : bool :=
  match Heap.getattr h c "debuglevel" with
  | Some (Heap.VInt z) => 0 <? z
  | _ => false
  end.

(** The objects that the functions of the module make and assign to;
    the others are the class [HTTPConnection] and its instances. *)
Definition module_object (o : Heap.obj) : bool :=
  match o with
  | Heap.session _ | Heap.adapter _ | Heap.retry _ | Heap.kwargs _ => true
  | Heap.HTTPConnection | Heap.connection _ => false
  end.

(** An assignment to the [debuglevel] of the class [HTTPConnection] or
    of one of its instances. *)
Definition assigns_debuglevel (w : Heap.assignment) : bool :=
  negb (module_object (fst (fst w))) && String.eqb (snd (fst w)) "debuglevel".


(** * Properties *)

(** ** Exhaustion of the counters *)

Lemma fold_min_le (cs : list Z) (c : Z) : fold_left Z.min cs c <= c.
Proof.
  revert c; induction cs as [|x cs IH]; intros c; simpl; [lia|].
  specialize (IH (Z.min c x)); lia.
Qed.

(** A negative [total] exhausts the [Retry] whatever the other counters. *)
Lemma exhausted_negative_total (r : Retry.t) (t : Z) :
  Retry.total r = Some t -> t < 0 -> Retry.is_exhausted r = true.
Proof.
  intros Ht Hneg. unfold Retry.is_exhausted. rewrite Ht.
  remember [Retry.connect r; Retry.read r; Retry.redirect r;
            Retry.status r; Retry.other r] as rest.
  cbn [Retry.filter_counts]. unfold Py.truthy at 1, Py.Truthy_Z.
  destruct (Z.eqb_spec t 0) as [->|_]; [lia|]. cbn [negb].
  apply Z.ltb_lt.
  pose proof (fold_min_le (Retry.filter_counts rest) t). lia.
Qed.

(** What [increment] keeps and what it changes, when it returns. *)
Lemma increment_ok (r r' : Retry.t) (m : string)
    (resp : option HTTPResponse.t) (err : option error) :
  Retry.increment r m resp err = Ok r' ->
  Retry.total r' = Retry.decr (Retry.total r)
  /\ Retry.is_exhausted r' = false
  /\ Retry.allowed_methods r' = Retry.allowed_methods r
  /\ Retry.status_forcelist r' = Retry.status_forcelist r
  /\ Retry.backoff_factor r' = Retry.backoff_factor r
  /\ Retry.raise_on_status r' = Retry.raise_on_status r
  /\ Retry.respect_retry_after_header r' = Retry.respect_retry_after_header r.
Proof.
  unfold Retry.increment.
  repeat match goal with
         | |- context [match ?x with _ => _ end] => destruct x eqn:?
         end;
    try discriminate;
    intros H; injection H as <-; cbn; auto 10.
Qed.

(** After an [increment] that returned, [total] is not negative. *)
Lemma increment_ok_total (r r' : Retry.t) (m : string)
    (resp : option HTTPResponse.t) (err : option error) (t : Z) :
  Retry.total r = Some t ->
  Retry.increment r m resp err = Ok r' ->
  Retry.total r' = Some (t - 1) /\ 1 <= t.
Proof.
  intros Ht H. apply increment_ok in H as (Htot & Hex & _).
  rewrite Ht in Htot. cbn in Htot. split; [exact Htot|].
  destruct (Z_lt_le_dec (t - 1) 0) as [Hneg|Hpos]; [|lia].
  rewrite (exhausted_negative_total r' (t - 1) Htot Hneg) in Hex.
  discriminate.
Qed.

(** ** The attempt loop ends, within the budget of the [Retry] *)

(** With more fuel than [total], the loop gives its result. *)
Lemma urlopen_total (fuel : nat) : forall srv m r made slept t,
  Retry.total r = Some t ->
  (Z.to_nat t < fuel)%nat ->
  exists out, urlopen fuel srv m r made slept = Some out.
Proof.
  induction fuel as [|fuel IH]; intros srv m r made slept t Ht Hfuel; [lia|].
  cbn [urlopen]. destruct (srv made) as [resp|e].
  - destruct (Retry.is_retry _ _ _ _); [|eauto].
    destruct (Retry.increment r m (Some resp) None) as [r'|x] eqn:Hinc.
    + destruct (increment_ok_total _ _ _ _ _ _ Ht Hinc) as [Ht' Hpos].
      apply (IH _ _ _ _ _ _ Ht'). lia.
    + destruct x; [eauto| |eauto]. destruct (Retry.raise_on_status r); eauto.
  - destruct (Retry.increment r m None (Some e)) as [r'|x] eqn:Hinc; [|eauto].
    destruct (increment_ok_total _ _ _ _ _ _ Ht Hinc) as [Ht' Hpos].
    apply (IH _ _ _ _ _ _ Ht'). lia.
Qed.

(** The loop never makes more attempts than one plus [total], and never
    fewer than one. *)
Lemma urlopen_attempts_bound (fuel : nat) : forall srv m r made slept t out,
  Retry.total r = Some t ->
  urlopen fuel srv m r made slept = Some out ->
  (made < attempts out <= made + S (Z.to_nat t))%nat.
Proof.
  induction fuel as [|fuel IH]; intros srv m r made slept t out Ht H;
    [discriminate|].
  cbn [urlopen] in H.
  assert (Hstep : forall r' slept', Retry.total r' = Some (t - 1) -> 1 <= t ->
            urlopen fuel srv m r' (S made) slept' = Some out ->
            (made < attempts out <= made + S (Z.to_nat t))%nat).
  { intros r' slept' Ht' Hpos H'.
    specialize (IH _ _ _ _ _ _ _ Ht' H'). lia. }
  assert (Hstop : forall v, Some (mkRun v (S made) slept) = Some out ->
            (made < attempts out <= made + S (Z.to_nat t))%nat).
  { intros v [= <-]. cbn. lia. }
  destruct (srv made) as [resp|e].
  - destruct (Retry.is_retry _ _ _ _); [|eauto].
    destruct (Retry.increment r m (Some resp) None) as [r'|x] eqn:Hinc.
    + destruct (increment_ok_total _ _ _ _ _ _ Ht Hinc) as [Ht' Hpos]. eauto.
    + destruct x; [eauto| |eauto]. destruct (Retry.raise_on_status r); eauto.
  - destruct (Retry.increment r m None (Some e)) as [r'|x] eqn:Hinc; [|eauto].
    destruct (increment_ok_total _ _ _ _ _ _ Ht Hinc) as [Ht' Hpos]. eauto.
Qed.

(** ** Construction *)

(** [__init__] returns, with the attributes chosen by [or]. *)
Lemma init_ok dh (a : SmartSession.args) :
  exists s, SmartSession.__init__ dh a = Ok s
    /\ SmartSession.num_retries s
       = Py.or_default (SmartSession.a_num_retries a) SmartSession.NUM_RETRIES
    /\ SmartSession.backoff_factor s
       = Py.or_default (SmartSession.a_backoff_factor a)
                       SmartSession.BACKOFF_FACTOR
    /\ SmartSession.status_forcelist s
       = Py.or_default (SmartSession.a_status_forcelist a)
                       SmartSession.STATUS_FORCELIST
    /\ SmartSession.method_whitelist s
       = Py.or_default (SmartSession.a_method_whitelist a)
                       SmartSession.METHOD_WHITELIST
    /\ SmartSession.timeout s = SmartSession.a_timeout a
    /\ SmartSession.user_agent s
       = Py.or_default (SmartSession.a_user_agent a) SmartSession.USER_AGENT
    /\ SmartSession.headers s
       = SmartSession.update dh "User-Agent" (SmartSession.user_agent s).
Proof.
  eexists. split; [reflexivity|]. cbn. auto 10.
Qed.

(** A request through a constructed session is the attempt loop run on
    the session's [Retry], with the session's timeout unless the call
    gives one. *)
Lemma request_unfold dh a s prefix m ct srv :
  SmartSession.__init__ dh a = Ok s ->
  mounted prefix ->
  SmartSession.request s prefix m ct srv
  = Some (effective_timeout s ct,
          urlopen (S (Z.to_nat (SmartSession.num_retries s))) srv m
                  (retry_of s) 0 []).
Proof.
  intros [= <-] [-> | ->]; reflexivity.
Qed.

(** [or] with a non-empty default never yields an empty list, nor a zero
    with a non-zero default. *)
Lemma or_default_truthy {A} `{Py.Truthy A} (x : option A) (d : A) :
  Py.truthy d = true -> Py.truthy (Py.or_default x d) = true.
Proof.
  intros Hd. destruct x as [v|]; cbn; [|exact Hd].
  destruct (Py.truthy v) eqn:Hv; [exact Hv|exact Hd].
Qed.

Lemma truthy_Z_nonzero (n : Z) : Py.truthy n = true <-> n <> 0.
Proof.
  unfold Py.truthy, Py.Truthy_Z. destruct (Z.eqb_spec n 0); cbn; split;
    congruence.
Qed.

Lemma truthy_Q_nonzero (q : Q) : Py.truthy q = true <-> ~ (q == 0)%Q.
Proof.
  unfold Py.truthy, Py.Truthy_Q. rewrite negb_true_iff.
  rewrite <- Qeq_bool_iff. destruct (Qeq_bool q 0); split; congruence.
Qed.

(** ** Claims about construction *)

(** C9: every falsy argument of the constructor ([0] for [num_retries],
    a zero [backoff_factor], an empty [status_forcelist] or
    [method_whitelist], an empty [user_agent]) is replaced by the class
    attribute; hence no session has a zero retry count or a zero backoff
    factor. *)
Theorem C9_falsy_arguments_fall_back_to_class_defaults dh a s :
  SmartSession.__init__ dh a = Ok s ->
  (SmartSession.a_num_retries a = Some 0 ->
   SmartSession.num_retries s = SmartSession.NUM_RETRIES)
  /\ (forall q, SmartSession.a_backoff_factor a = Some q -> (q == 0)%Q ->
      SmartSession.backoff_factor s = SmartSession.BACKOFF_FACTOR)
  /\ (SmartSession.a_status_forcelist a = Some [] ->
      SmartSession.status_forcelist s = SmartSession.STATUS_FORCELIST)
  /\ (SmartSession.a_method_whitelist a = Some [] ->
      SmartSession.method_whitelist s = SmartSession.METHOD_WHITELIST)
  /\ (SmartSession.a_user_agent a = Some "" ->
      SmartSession.user_agent s = SmartSession.USER_AGENT)
  /\ SmartSession.num_retries s <> 0
  /\ ~ (SmartSession.backoff_factor s == 0)%Q.
Proof.
  intros H.
  destruct (init_ok dh a) as (s' & E & Hn & Hb & Hs & Hm & _ & Hu & _).
  rewrite E in H. injection H as <-.
  repeat split.
  - intros Ha. rewrite Hn, Ha. reflexivity.
  - intros q Ha Hq. rewrite Hb, Ha. cbn.
    destruct (Py.truthy q) eqn:Hq'; [|reflexivity].
    apply truthy_Q_nonzero in Hq'. contradiction.
  - intros Ha. rewrite Hs, Ha. reflexivity.
  - intros Ha. rewrite Hm, Ha. reflexivity.
  - intros Ha. rewrite Hu, Ha. reflexivity.
  - apply truthy_Z_nonzero. rewrite Hn. now apply or_default_truthy.
  - apply truthy_Q_nonzero. rewrite Hb. now apply or_default_truthy.
Qed.

Lemma C9_witness :
  exists s,
    SmartSession.__init__ []
      (SmartSession.mkArgs (Some 0) (Some 0%Q) (Some []) (Some []) None
                           (Some "")) = Ok s
    /\ SmartSession.num_retries s = 5
    /\ SmartSession.backoff_factor s = 0.3%Q
    /\ SmartSession.status_forcelist s = [429; 500; 502; 503; 504]
    /\ SmartSession.method_whitelist s
       = ["HEAD"; "GET"; "PUT"; "POST"; "DELETE"; "OPTIONS"; "TRACE"]
    /\ SmartSession.user_agent s = SmartSession.USER_AGENT.
Proof.
  pose (a := SmartSession.mkArgs (Some 0) (Some 0%Q) (Some []) (Some []) None
                                (Some "")).
  destruct (init_ok [] a) as (s & E & _).
  exists s. split; [exact E|].
  destruct (C9_falsy_arguments_fall_back_to_class_defaults [] a s E)
    as (Hn & Hb & Hs & Hm & Hu & _).
  repeat split.
  - apply Hn. reflexivity.
  - apply (Hb 0%Q); reflexivity.
  - apply Hs. reflexivity.
  - apply Hm. reflexivity.
  - apply Hu. reflexivity.
Defined.

(** C3, as amended: an empty [status_forcelist] or [method_whitelist]
    builds the very session that leaving the argument out builds; the
    class default takes the place of the empty list, and the session
    retries as the default one does, a [GET] that meets 503 for one. *)
Theorem C3_empty_lists_are_replaced_by_defaults dh n bf sf mw t ua :
  SmartSession.__init__ dh (SmartSession.mkArgs n bf (Some []) mw t ua)
  = SmartSession.__init__ dh (SmartSession.mkArgs n bf None mw t ua)
  /\ SmartSession.__init__ dh (SmartSession.mkArgs n bf sf (Some []) t ua)
     = SmartSession.__init__ dh (SmartSession.mkArgs n bf sf None t ua)
  /\ exists s,
       SmartSession.__init__ dh
         (SmartSession.mkArgs n bf (Some []) (Some []) t ua) = Ok s
       /\ SmartSession.status_forcelist s = SmartSession.STATUS_FORCELIST
       /\ SmartSession.method_whitelist s = SmartSession.METHOD_WHITELIST
       /\ Retry.is_retry (retry_of s) "GET" 503 false = true.
Proof.
  split; [reflexivity|]. split; [reflexivity|].
  destruct (init_ok dh (SmartSession.mkArgs n bf (Some []) (Some []) t ua))
    as (s & E & _ & _ & Hs & Hm & _).
  exists s. cbn in Hs, Hm. split; [exact E|]. split; [exact Hs|].
  split; [exact Hm|].
  unfold Retry.is_retry, Retry._is_method_retryable.
  cbn [retry_of Retry.allowed_methods Retry.status_forcelist].
  rewrite Hs, Hm. reflexivity.
Qed.

(** ** The timeout *)

(** C2: a session built without [timeout] hands [None] to the adapter
    under the key ["timeout"]; the key is present, so the adapter's
    [TIMEOUT] of 5 seconds is overwritten by [None], and a request
    without a timeout of its own is sent with no timeout at all.  A
    timeout given with the call is the one sent. *)
Theorem C2_unset_session_timeout_sends_no_timeout dh n bf sf mw ua m srv :
  exists s ad,
    SmartSession.__init__ dh (SmartSession.mkArgs n bf sf mw None ua) = Ok s
    /\ SmartSession.adapter s = Some ad
    /\ TimeoutHTTPAdapter.timeout ad = None
    /\ TimeoutHTTPAdapter.timeout ad <> Some TimeoutHTTPAdapter.TIMEOUT
    /\ (exists r, SmartSession.request s "https://" m None srv
                  = Some (None, r))
    /\ (forall v, exists r, SmartSession.request s "https://" m (Some v) srv
                            = Some (Some v, r)).
Proof.
  do 2 eexists. split; [reflexivity|]. split; [reflexivity|].
  split; [reflexivity|]. split; [discriminate|].
  split; [|intros v]; eexists; reflexivity.
Qed.

(** The adapter alone, built without the key, does default to 5 seconds:
    the default is lost in [init_all], which always passes the key. *)
Lemma adapter_default_timeout (retry : Retry.t) :
  TimeoutHTTPAdapter.send_timeout
    (TimeoutHTTPAdapter.__init__ (TimeoutHTTPAdapter.mkKwargs None retry)) None
  = Some 5%Q.
Proof. reflexivity. Qed.

(** ** The number of attempts of a session *)

Lemma get_update {V} (d : list (string * V)) (k : string) (v : V) :
  SmartSession.get (SmartSession.update d k v) k = Some v.
Proof.
  induction d as [|[k' v'] d IH]; cbn.
  - now rewrite String.eqb_refl.
  - destruct (String.eqb k' k) eqn:E; cbn.
    + now rewrite String.eqb_refl.
    + now rewrite E.
Qed.

(** Whatever the prefix, a request that was sent ran the attempt loop on
    the session's [Retry]. *)
Lemma request_run dh a s prefix m ct srv eff r :
  SmartSession.__init__ dh a = Ok s ->
  SmartSession.request s prefix m ct srv = Some (eff, Some r) ->
  urlopen (S (Z.to_nat (SmartSession.num_retries s))) srv m (retry_of s) 0 []
  = Some r.
Proof.
  intros [= <-]. unfold SmartSession.request. cbn [SmartSession.adapters].
  cbn [SmartSession.update SmartSession.get].
  change (String.eqb "http://" "https://") with false. cbv iota.
  cbn [SmartSession.get].
  destruct (String.eqb "http://" prefix);
    [|destruct (String.eqb "https://" prefix)];
    try discriminate; intros [= _ <-]; reflexivity.
Qed.


(** Every request through a constructed session, to a mounted prefix,
    gives its result: the bound on the loop is never reached. *)
Lemma session_request_total dh a s prefix m ct srv :
  SmartSession.__init__ dh a = Ok s ->
  mounted prefix ->
  exists eff r, SmartSession.request s prefix m ct srv = Some (eff, Some r).
Proof.
  intros Hs Hp. rewrite (request_unfold _ _ _ _ m ct srv Hs Hp).
  destruct (urlopen_total (S (Z.to_nat (SmartSession.num_retries s))) srv m
              (retry_of s) 0%nat [] (SmartSession.num_retries s) eq_refl)
    as [out ->]; [lia|]. eauto.
Qed.

(** The session built without arguments, or with an empty
    [status_forcelist], on a [GET] that always meets 503. *)
Lemma default_session_on_503 s eff r :
  SmartSession.__init__ [] SmartSession.no_args = Ok s ->
  SmartSession.request s "https://" "GET" None
    (always (Responds (HTTPResponse.mk 503 None None)))
  = Some (eff, Some r) ->
  attempts r = 6%nat.
Proof.
  intros [= <-]. vm_compute. intros [= <- <-]. reflexivity.
Qed.

(** C3, as stated, fails: a session built with an empty
    [status_forcelist] still retries a [GET] that meets 503, six attempts
    in all. *)
Lemma C3_counterexample :
  ~ (forall s eff r,
       SmartSession.__init__ []
         (SmartSession.mkArgs None None (Some []) None None None) = Ok s ->
       SmartSession.request s "https://" "GET" None
         (always (Responds (HTTPResponse.mk 503 None None)))
       = Some (eff, Some r) ->
       attempts r = 1%nat).
Proof.
  intros H.
  destruct (init_ok [] SmartSession.no_args) as (s & E & _).
  destruct (session_request_total _ _ _ "https://" "GET" None
              (always (Responds (HTTPResponse.mk 503 None None)))
              E (or_intror eq_refl)) as (eff & r & Hr).
  pose proof (H s eff r E Hr) as H1.
  pose proof (default_session_on_503 s eff r E Hr) as H6. lia.
Qed.



(** With [total] at zero or below, a connection error on the next
    attempt is the last: [increment] raises [MaxRetryError]. *)
Lemma increment_connection_error_exhausted (r : Retry.t) (m : string)
    (e : error) (t : Z) :
  Retry.total r = Some t -> t <= 0 ->
  Retry._is_connection_error e = true ->
  Retry.increment r m None (Some e) = Raise (MaxRetryError (ReasonError e)).
Proof.
  intros Ht Hneg He. unfold Retry.increment. rewrite He. cbv zeta beta.
  rewrite (exhausted_negative_total _ (t - 1)); [reflexivity| |lia].
  cbn [Retry.total]. rewrite Ht. reflexivity.
Qed.

(** C4, as stated, fails: building a session with [num_retries = -1]
    raises nothing. *)
Lemma C4_counterexample :
  ~ (forall n, n < 1 ->
       exists x,
         SmartSession.__init__ []
           (SmartSession.mkArgs (Some n) None None None None None) = Raise x).
Proof.
  intros H. destruct (H (-1) ltac:(lia)) as [x Hx]. discriminate Hx.
Qed.

(** ** The backoff *)

Lemma takewhile_all (h : list Retry.RequestHistory) :
  Forall (fun x => Retry.h_redirect_location x = None) h ->
  Retry.takewhile_no_redirect h = h.
Proof.
  induction 1 as [|x h Hx _ IH]; cbn; [reflexivity|].
  rewrite Hx, IH. reflexivity.
Qed.

(** Without a redirect in the history, every entry counts. *)
Lemma consecutive_errors_all (r : Retry.t) :
  Forall (fun x => Retry.h_redirect_location x = None) (Retry.history r) ->
  Retry.consecutive_errors_len r = List.length (Retry.history r).
Proof.
  intros H. unfold Retry.consecutive_errors_len.
  rewrite takewhile_all; [apply length_rev|].
  apply Forall_rev. exact H.
Qed.

(** The time slept on backoff is [backoff_wait] of the factor and of the
    number of consecutive failures. *)
Lemma sleep_backoff_wait (r : Retry.t) :
  Retry._sleep_backoff r
  = backoff_wait (Retry.backoff_factor r) (Retry.consecutive_errors_len r).
Proof.
  unfold Retry._sleep_backoff, Retry.get_backoff_time, backoff_wait.
  destruct (Retry.consecutive_errors_len r <=? 1)%nat; reflexivity.
Qed.

Lemma pow2_nonneg (z : Z) : (0 <= inject_Z (2 ^ z))%Q.
Proof.
  change 0%Q with (inject_Z 0). rewrite <- Zle_Qle.
  apply Z.pow_nonneg. lia.
Qed.

(** ** Which outcomes are final *)




Lemma in_or_default_list (x : Z) (l : list Z) :
  Py.in_Z x (Py.or_default (Some l) []) = Py.in_Z x l.
Proof. destruct l; reflexivity. Qed.

(** ** A server that always answers with a retryable status *)

(** With [connect] and [read] positive and the other counters unset, a
    [Retry] is exhausted exactly when [total] is negative. *)
Lemma is_exhausted_by_total t n am sf bf ros rra h :
  0 < n ->
  Retry.is_exhausted
    (Retry.mk (Some t) (Some n) (Some n) None None None am sf bf ros rra h)
  = (t <? 0).
Proof.
  intros Hn. unfold Retry.is_exhausted.
  cbn [Retry.total Retry.connect Retry.read Retry.redirect Retry.status
       Retry.other Retry.filter_counts].
  unfold Py.truthy, Py.Truthy_Z.
  destruct (Z.eqb_spec n 0) as [->|_]; [lia|].
  destruct (Z.eqb_spec t 0) as [->|_]; cbn [negb fold_left].
  - destruct (Z.ltb_spec (Z.min n n) 0); [lia|reflexivity].
  - destruct (Z.ltb_spec (Z.min (Z.min t n) n) 0), (Z.ltb_spec t 0);
      try reflexivity; lia.
Qed.

Section AlwaysRetried.

Variables (n : Z) (am : list string) (sf : list Z) (bf : Q).
Variables (resp : HTTPResponse.t) (m : string).

Hypothesis n_pos : 0 < n.
Hypothesis method_listed : Py.in_str (Py.upper m) am = true.
Hypothesis status_listed : Py.in_Z (HTTPResponse.status resp) sf = true.
Hypothesis status_truthy : Py.truthy (HTTPResponse.status resp) = true.
Hypothesis no_retry_after : HTTPResponse.retry_after resp = None.
Hypothesis no_redirect : HTTPResponse.get_redirect_location resp = None.

Lemma always_is_retry t h :
  Retry.is_retry (retry_state n am sf bf t h) m (HTTPResponse.status resp)
                 (HTTPResponse.has_retry_after resp) = true.
Proof.
  unfold Retry.is_retry, Retry._is_method_retryable.
  cbn [retry_state Retry.allowed_methods Retry.status_forcelist].
  rewrite method_listed, status_listed, andb_false_r. cbn [negb].
  destruct sf; [discriminate status_listed|reflexivity].
Qed.

Lemma always_increment t h :
  Retry.increment (retry_state n am sf bf t h) m (Some resp) None
  = if t - 1 <? 0
    then Raise (MaxRetryError
                  (ResponseError (SPECIFIC_ERROR (HTTPResponse.status resp))))
    else Ok (retry_state n am sf bf (t - 1)
               (h ++ [Retry.mkHistory m None
                        (Some (HTTPResponse.status resp)) None])%list).
Proof.
  unfold Retry.increment. rewrite no_redirect, status_truthy.
  cbv zeta beta. cbn [retry_state Retry.total Retry.connect Retry.read
    Retry.redirect Retry.status Retry.other Retry.allowed_methods
    Retry.status_forcelist Retry.backoff_factor Retry.raise_on_status
    Retry.respect_retry_after_header Retry.history Retry.decr option_map].
  rewrite (is_exhausted_by_total _ _ _ _ _ _ _ _ n_pos). reflexivity.
Qed.

Lemma always_sleep t h :
  Forall (fun x => Retry.h_redirect_location x = None) h ->
  Retry.sleep (retry_state n am sf bf t h) (Some resp) = backoff_wait bf (List.length h).
Proof.
  intros Hh. unfold Retry.sleep, Retry.sleep_for_retry, Retry.get_retry_after.
  rewrite no_retry_after. cbn [retry_state Retry.respect_retry_after_header].
  rewrite sleep_backoff_wait, consecutive_errors_all; [reflexivity|exact Hh].
Qed.

(** From [total = t] and [made] failures behind, the loop makes [t + 1]
    more attempts, sleeps the backoff between them, and raises
    [MaxRetryError]. *)
Lemma urlopen_always_retried (fuel : nat) : forall t h slept,
  0 <= t ->
  (Z.to_nat t < fuel)%nat ->
  Forall (fun x => Retry.h_redirect_location x = None) h ->
  urlopen fuel (always (Responds resp)) m (retry_state n am sf bf t h) (List.length h) slept
  = Some (mkRun
            (Raise (MaxRetryError
                      (ResponseError
                         (SPECIFIC_ERROR (HTTPResponse.status resp)))))
            (List.length h + S (Z.to_nat t))
            (slept ++ map (backoff_wait bf)
                          (seq (S (List.length h)) (Z.to_nat t)))%list).
Proof.
  induction fuel as [|fuel IH]; intros t h slept Ht Hfuel Hh; [lia|].
  cbn [urlopen]. unfold always at 1.
  rewrite always_is_retry, always_increment.
  destruct (Z.ltb_spec (t - 1) 0) as [Hlast|Hmore].
  - replace t with 0 by lia. cbn [Z.to_nat seq map retry_state Retry.raise_on_status].
    rewrite app_nil_r. do 2 f_equal. lia.
  - set (h' := (h ++ [Retry.mkHistory m None
                        (Some (HTTPResponse.status resp)) None])%list).
    assert (Hh' : Forall (fun x => Retry.h_redirect_location x = None) h').
    { apply Forall_app. split; [exact Hh|]. constructor; [reflexivity|constructor]. }
    assert (Hlen : List.length h' = S (List.length h)).
    { unfold h'. rewrite length_app. cbn. lia. }
    rewrite (always_sleep _ _ Hh'), Hlen, <- Hlen.
    rewrite (IH (t - 1) h' _ ltac:(lia) ltac:(lia) Hh'), Hlen.
    replace (Z.to_nat t) with (S (Z.to_nat (t - 1))) by lia.
    cbn [seq map]. rewrite <- app_assoc. cbn [app].
    do 2 f_equal. lia.
Qed.

End AlwaysRetried.

(** * Further properties of the code *)

(** ** The association lists behind [mount] and [headers.update] *)

Lemma get_update_other {V} (d : list (string * V)) (k k' : string) (v : V) :
  k <> k' ->
  SmartSession.get (SmartSession.update d k v) k' = SmartSession.get d k'.
Proof.
  intros Hk. apply String.eqb_neq in Hk.
  induction d as [|[k0 v0] d IH]; cbn.
  - rewrite Hk. reflexivity.
  - destruct (String.eqb k0 k) eqn:E; cbn.
    + apply String.eqb_eq in E. subst k0. rewrite Hk. reflexivity.
    + rewrite IH. reflexivity.
Qed.

Lemma update_get_same {V} (d : list (string * V)) (k : string) (v : V) :
  SmartSession.get d k = Some v -> SmartSession.update d k v = d.
Proof.
  induction d as [|[k0 v0] d IH]; cbn; [discriminate|].
  destruct (String.eqb k0 k) eqn:E.
  - apply String.eqb_eq in E. intros [= ->]. subst k0. reflexivity.
  - intros H. rewrite (IH H). reflexivity.
Qed.

Lemma length_update {V} (d : list (string * V)) (k : string) (v : V) :
  List.length (SmartSession.update d k v)
  = match SmartSession.get d k with
    | Some _ => List.length d
    | None => S (List.length d)
    end.
Proof.
  induction d as [|[k0 v0] d IH]; cbn; [reflexivity|].
  destruct (String.eqb k0 k); cbn; [reflexivity|].
  rewrite IH. destruct (SmartSession.get d k); reflexivity.
Qed.

(** ** [init_all] on any session *)

(** [init_all] returns whatever the attributes hold: it copies the six
    attributes, builds the adapter from them and mounts it. *)
Lemma init_all_ok (self : SmartSession.t) :
  exists s,
    SmartSession.init_all self = Ok s
    /\ SmartSession.num_retries s = SmartSession.num_retries self
    /\ SmartSession.backoff_factor s = SmartSession.backoff_factor self
    /\ SmartSession.status_forcelist s = SmartSession.status_forcelist self
    /\ SmartSession.method_whitelist s = SmartSession.method_whitelist self
    /\ SmartSession.timeout s = SmartSession.timeout self
    /\ SmartSession.user_agent s = SmartSession.user_agent self
    /\ SmartSession.headers s
       = SmartSession.update (SmartSession.headers self) "User-Agent"
                             (SmartSession.user_agent self)
    /\ SmartSession.adapters s
       = SmartSession.update
           (SmartSession.update (SmartSession.adapters self) "http://"
              (TimeoutHTTPAdapter.mk (SmartSession.timeout self)
                                     (retry_of self)))
           "https://"
           (TimeoutHTTPAdapter.mk (SmartSession.timeout self) (retry_of self))
    /\ SmartSession.adapter s
       = Some (TimeoutHTTPAdapter.mk (SmartSession.timeout self)
                                     (retry_of self)).
Proof.
  eexists. split; [reflexivity|]. cbn. auto 12.
Qed.

(** After [init_all], both prefixes lead to the adapter just built,
    whatever was mounted before. *)
Lemma init_all_mounts (self s : SmartSession.t) (prefix : string) :
  SmartSession.init_all self = Ok s ->
  mounted prefix ->
  SmartSession.get (SmartSession.adapters s) prefix
  = Some (TimeoutHTTPAdapter.mk (SmartSession.timeout self) (retry_of self)).
Proof.
  intros H Hp.
  destruct (init_all_ok self) as (s' & E & _ & _ & _ & _ & _ & _ & _ & Ha & _).
  rewrite E in H. injection H as <-. rewrite Ha.
  destruct Hp as [-> | ->].
  - rewrite get_update_other; [apply get_update|discriminate].
  - apply get_update.
Qed.

(** A request after [init_all] runs the loop on the [Retry] of the
    attributes, with the timeout attribute unless the call gives one. *)
Lemma init_all_request (self s : SmartSession.t) prefix m ct srv :
  SmartSession.init_all self = Ok s ->
  mounted prefix ->
  SmartSession.request s prefix m ct srv
  = Some (effective_timeout self ct,
          urlopen (S (Z.to_nat (SmartSession.num_retries self))) srv m
                  (retry_of self) 0 []).
Proof.
  intros H Hp. unfold SmartSession.request.
  rewrite (init_all_mounts _ _ _ H Hp). reflexivity.
Qed.

(** [init_all] is idempotent: run on the session it returned, it
    returns that session again.  Mounting the adapter and setting the
    header a second time add nothing. *)
Theorem init_all_idempotent (self s : SmartSession.t) :
  SmartSession.init_all self = Ok s ->
  SmartSession.init_all s = Ok s.
Proof.
  intros H.
  destruct (init_all_ok self)
    as (s1 & E1 & Hn & Hb & Hs & Hm & Ht & Hu & Hh & Ha & Had).
  rewrite E1 in H. injection H as <-.
  pose proof (init_all_mounts self s1 "http://" E1 (or_introl eq_refl)) as G1.
  pose proof (init_all_mounts self s1 "https://" E1 (or_intror eq_refl)) as G2.
  assert (Er : retry_of s1 = retry_of self).
  { unfold retry_of. rewrite Hn, Hb, Hs, Hm. reflexivity. }
  destruct (init_all_ok s1)
    as (s2 & E2 & Hn2 & Hb2 & Hs2 & Hm2 & Ht2 & Hu2 & Hh2 & Ha2 & Had2).
  rewrite E2. f_equal.
  rewrite Er, Ht in Ha2, Had2.
  rewrite (update_get_same _ _ _ G1), (update_get_same _ _ _ G2) in Ha2.
  rewrite Hu in Hh2. rewrite update_get_same in Hh2
    by (rewrite Hh; apply get_update).
  rewrite <- Had in Had2.
  destruct s1, s2; cbn in *. congruence.
Qed.

Lemma init_all_idempotent_witness :
  exists s,
    SmartSession.__init__ [("Accept", "*/*")] SmartSession.no_args = Ok s
    /\ SmartSession.init_all s = Ok s.
Proof.
  destruct (init_ok [("Accept", "*/*")] SmartSession.no_args) as (s & E & _).
  exists s. split; [exact E|].
  exact (init_all_idempotent _ s E).
Defined.

(** ** The [User-Agent] header *)

(** Whatever the arguments, the session's [User-Agent] header is its
    [user_agent] attribute, which is never the empty string; the other
    default headers are kept, and a [User-Agent] that was among them is
    replaced, not added to. *)
Theorem user_agent_header_is_set_and_never_empty dh a s :
  SmartSession.__init__ dh a = Ok s ->
  SmartSession.get (SmartSession.headers s) "User-Agent"
  = Some (SmartSession.user_agent s)
  /\ SmartSession.user_agent s <> ""
  /\ (forall k, Py.upper k <> Py.upper "User-Agent" ->
      SmartSession.get (SmartSession.headers s) k = SmartSession.get dh k)
  /\ List.length (SmartSession.headers s)
     = match SmartSession.get dh "User-Agent" with
       | Some _ => List.length dh
       | None => S (List.length dh)
       end.
Proof.
  intros H.
  destruct (init_ok dh a) as (s' & E & _ & _ & _ & _ & _ & Hu & Hh).
  rewrite E in H. injection H as <-. rewrite Hh.
  split; [apply get_update|]. split.
  - assert (Ht : Py.truthy (SmartSession.user_agent s') = true).
    { rewrite Hu. now apply or_default_truthy. }
    intros Hempty. rewrite Hempty in Ht. discriminate Ht.
  - split; [|apply length_update].
    intros k Hk. apply get_update_other. intros <-. apply Hk. reflexivity.
Qed.

Lemma user_agent_header_is_set_and_never_empty_witness :
  exists s,
    SmartSession.__init__
      [("User-Agent", "python-requests/2.25.1"); ("Accept", "*/*")]
      (SmartSession.mkArgs None None None None None (Some "")) = Ok s
    /\ SmartSession.get (SmartSession.headers s) "User-Agent"
       = Some (SmartSession.user_agent s)
    /\ SmartSession.user_agent s <> ""
    /\ SmartSession.get (SmartSession.headers s) "Accept" = Some "*/*"
    /\ List.length (SmartSession.headers s) = 2%nat.
Proof.
  destruct (init_ok
              [("User-Agent", "python-requests/2.25.1"); ("Accept", "*/*")]
              (SmartSession.mkArgs None None None None None (Some "")))
    as (s & E & _).
  destruct (user_agent_header_is_set_and_never_empty _ _ s E)
    as (Hua & Hne & Hother & Hlen).
  exists s. split; [exact E|]. split; [exact Hua|]. split; [exact Hne|].
  split; [|exact Hlen].
  rewrite (Hother "Accept"); [reflexivity|discriminate].
Defined.

(** ** What every run keeps *)

(** One wait between two attempts, none before the first and none
    after the last. *)
Lemma urlopen_waits_count (fuel : nat) : forall srv m r made slept out,
  urlopen fuel srv m r made slept = Some out ->
  (attempts out + List.length slept = S made + List.length (waits out))%nat.
Proof.
  induction fuel as [|fuel IH]; intros srv m r made slept out H;
    [discriminate|].
  cbn [urlopen] in H.
  assert (Hstep : forall r' w,
            urlopen fuel srv m r' (S made) (slept ++ [w])%list = Some out ->
            (attempts out + List.length slept
             = S made + List.length (waits out))%nat).
  { intros r' w H'. specialize (IH _ _ _ _ _ _ H').
    rewrite length_app in IH. cbn in IH. lia. }
  assert (Hstop : forall v, Some (mkRun v (S made) slept) = Some out ->
            (attempts out + List.length slept
             = S made + List.length (waits out))%nat).
  { intros v [= <-]. cbn. lia. }
  destruct (srv made) as [resp|e].
  - destruct (Retry.is_retry _ _ _ _); [|eauto].
    destruct (Retry.increment r m (Some resp) None) as [r'|x]; [eauto|].
    destruct x; [eauto| |eauto]. destruct (Retry.raise_on_status r); eauto.
  - destruct (Retry.increment r m None (Some e)) as [r'|x]; eauto.
Qed.

Lemma sleep_backoff_nonneg (r : Retry.t) : (0 <= Retry._sleep_backoff r)%Q.
Proof.
  unfold Retry._sleep_backoff.
  destruct (Qle_bool (Retry.get_backoff_time r) 0) eqn:E; [apply Qle_refl|].
  destruct (Qlt_le_dec 0 (Retry.get_backoff_time r)) as [Hlt|Hle].
  - apply Qlt_le_weak. exact Hlt.
  - apply Qle_bool_iff in Hle. congruence.
Qed.

(** No sleep of the retry logic is negative. *)
Lemma sleep_nonneg (r : Retry.t) (resp : option HTTPResponse.t) :
  (0 <= Retry.sleep r resp)%Q.
Proof.
  unfold Retry.sleep. destruct resp as [resp|]; [|apply sleep_backoff_nonneg].
  destruct (Retry.respect_retry_after_header r); [|apply sleep_backoff_nonneg].
  unfold Retry.sleep_for_retry, Retry.get_retry_after.
  destruct (HTTPResponse.retry_after resp) as [d|]; [|apply sleep_backoff_nonneg].
  destruct (Py.truthy _); [|apply sleep_backoff_nonneg].
  destruct (Qle_bool 0 d) eqn:E; cbn [negb].
  - apply Qle_bool_iff. exact E.
  - apply Qle_refl.
Qed.

Lemma sleep_backoff_le_max (r : Retry.t) :
  (Retry._sleep_backoff r <= Retry.DEFAULT_BACKOFF_MAX)%Q.
Proof.
  unfold Retry._sleep_backoff, Retry.get_backoff_time.
  destruct (Retry.consecutive_errors_len r <=? 1)%nat.
  - destruct (Qle_bool 0 0); discriminate.
  - destruct (Qle_bool _ 0); [discriminate|apply Q.le_min_l].
Qed.

Lemma sleep_without_retry_after (r : Retry.t) (resp : option HTTPResponse.t) :
  match resp with
  | Some x => HTTPResponse.retry_after x = None
  | None => True
  end ->
  Retry.sleep r resp = Retry._sleep_backoff r.
Proof.
  destruct resp as [x|]; [|reflexivity]. intros H.
  unfold Retry.sleep, Retry.sleep_for_retry, Retry.get_retry_after.
  rewrite H. destruct (Retry.respect_retry_after_header r); reflexivity.
Qed.

(** A negative factor never sleeps on backoff. *)
Lemma sleep_backoff_negative_factor (r : Retry.t) :
  (Retry.backoff_factor r < 0)%Q -> Retry._sleep_backoff r = 0%Q.
Proof.
  intros Hneg. unfold Retry._sleep_backoff, Retry.get_backoff_time.
  destruct (Retry.consecutive_errors_len r <=? 1)%nat; [reflexivity|].
  set (v := (Retry.backoff_factor r * _)%Q).
  destruct (Qle_bool (Qmin Retry.DEFAULT_BACKOFF_MAX v) 0) eqn:E;
    [reflexivity|].
  exfalso. assert (Hle : (Qmin Retry.DEFAULT_BACKOFF_MAX v <= 0)%Q).
  { apply Qle_trans with v; [apply Q.le_min_r|].
    unfold v.
    apply Qle_trans
      with (0 * inject_Z (2 ^ (Z.of_nat (Retry.consecutive_errors_len r) - 1)))%Q.
    - apply Qmult_le_compat_r; [apply Qlt_le_weak; exact Hneg|apply pow2_nonneg].
    - rewrite Qmult_0_l. apply Qle_refl. }
  apply Qle_bool_iff in Hle. congruence.
Qed.

(** A property of every sleep of the loop is a property of every wait of
    the run. *)
Lemma urlopen_waits_Forall (P : Q -> Prop) (bf : Q) (srv : server) :
  (forall r i,
     Retry.backoff_factor r = bf ->
     P (Retry.sleep r (match srv i with
                       | Responds resp => Some resp
                       | Fails _ => None
                       end))) ->
  forall fuel m r made slept out,
    Retry.backoff_factor r = bf ->
    Forall P slept ->
    urlopen fuel srv m r made slept = Some out ->
    Forall P (waits out).
Proof.
  intros Hsleep.
  induction fuel as [|fuel IH]; intros m r made slept out Hbf Hall H;
    [discriminate|].
  cbn [urlopen] in H. pose proof (Hsleep) as Hs.
  assert (Hstop : forall v, Some (mkRun v (S made) slept) = Some out ->
            Forall P (waits out)).
  { intros v [= <-]. exact Hall. }
  destruct (srv made) as [resp|e] eqn:Hsrv.
  - destruct (Retry.is_retry _ _ _ _); [|eauto].
    destruct (Retry.increment r m (Some resp) None) as [r'|x] eqn:Hinc.
    + apply increment_ok in Hinc as (_ & _ & _ & _ & Hbf' & _).
      rewrite Hbf in Hbf'.
      apply (IH _ _ _ _ _ Hbf') in H; [exact H|].
      apply Forall_app. split; [exact Hall|]. constructor; [|constructor].
      specialize (Hs r' made Hbf'). rewrite Hsrv in Hs. exact Hs.
    + destruct x; [eauto| |eauto]. destruct (Retry.raise_on_status r); eauto.
  - destruct (Retry.increment r m None (Some e)) as [r'|x] eqn:Hinc; [|eauto].
    apply increment_ok in Hinc as (_ & _ & _ & _ & Hbf' & _).
    rewrite Hbf in Hbf'.
    apply (IH _ _ _ _ _ Hbf') in H; [exact H|].
    apply Forall_app. split; [exact Hall|]. constructor; [|constructor].
    specialize (Hs r' made Hbf'). rewrite Hsrv in Hs. exact Hs.
Qed.

(** No wait of a request is negative, whatever the backoff factor and
    the [Retry-After] headers; and when no response carries
    [Retry-After], no wait exceeds the 120 seconds of the backoff cap. *)
Theorem waits_are_never_negative_and_capped
    dh a s prefix m ct srv eff r :
  SmartSession.__init__ dh a = Ok s ->
  SmartSession.request s prefix m ct srv = Some (eff, Some r) ->
  Forall (fun w => (0 <= w)%Q) (waits r)
  /\ ((forall i resp, srv i = Responds resp ->
                      HTTPResponse.retry_after resp = None) ->
      Forall (fun w => (w <= 120)%Q) (waits r)).
Proof.
  intros Hs Hr. pose proof (request_run _ _ _ _ _ _ _ _ _ Hs Hr) as Hrun.
  split.
  - refine (urlopen_waits_Forall (fun w => (0 <= w)%Q) _ srv _
              _ _ _ _ _ _ eq_refl (Forall_nil _) Hrun).
    intros; apply sleep_nonneg.
  - intros Hno.
    refine (urlopen_waits_Forall (fun w => (w <= 120)%Q) _ srv _
              _ _ _ _ _ _ eq_refl (Forall_nil _) Hrun).
    intros r0 i _. rewrite sleep_without_retry_after.
    + apply sleep_backoff_le_max.
    + destruct (srv i) as [resp|e] eqn:E; [exact (Hno i resp E)|exact I].
Qed.

Lemma waits_are_never_negative_and_capped_witness :
  exists s eff r,
    SmartSession.__init__ [] SmartSession.no_args = Ok s
    /\ SmartSession.request s "https://" "GET" None
         (always (Responds (HTTPResponse.mk 503 None None)))
       = Some (eff, Some r)
    /\ Forall (fun w => (0 <= w)%Q) (waits r)
    /\ Forall (fun w => (w <= 120)%Q) (waits r).
Proof.
  destruct (init_ok [] SmartSession.no_args) as (s & E & _).
  destruct (session_request_total _ _ _ "https://" "GET" None
              (always (Responds (HTTPResponse.mk 503 None None)))
              E (or_intror eq_refl)) as (eff & r & Hr).
  destruct (waits_are_never_negative_and_capped _ _ _ _ _ _ _ _ _ E Hr)
    as [Hnn Hcap].
  exists s, eff, r. split; [exact E|]. split; [exact Hr|].
  split; [exact Hnn|]. apply Hcap.
  intros i resp [= <-]. reflexivity.
Defined.

(** A negative backoff factor is truthy, so the constructor keeps it;
    with it the session never waits between attempts, unless a response
    asks for a delay with [Retry-After]. *)
Theorem negative_backoff_factor_never_waits
    dh a s q prefix m ct srv eff r :
  SmartSession.__init__ dh a = Ok s ->
  SmartSession.a_backoff_factor a = Some q ->
  (q < 0)%Q ->
  SmartSession.request s prefix m ct srv = Some (eff, Some r) ->
  (forall i resp, srv i = Responds resp ->
                  HTTPResponse.retry_after resp = None) ->
  SmartSession.backoff_factor s = q
  /\ Forall (fun w => w = 0%Q) (waits r).
Proof.
  intros Hs Ha Hq Hr Hno.
  destruct (init_ok dh a) as (s' & E & _ & Hb & _).
  rewrite E in Hs. injection Hs as <-.
  assert (Hbf : SmartSession.backoff_factor s' = q).
  { rewrite Hb, Ha. cbn.
    destruct (Py.truthy q) eqn:Ht; [reflexivity|].
    assert (Hnz : ~ (q == 0)%Q).
    { intros Hz. rewrite Hz in Hq. discriminate Hq. }
    apply truthy_Q_nonzero in Hnz. congruence. }
  split; [exact Hbf|].
  pose proof (request_run _ _ _ _ _ _ _ _ _ E Hr) as Hrun.
  refine (urlopen_waits_Forall (fun w => w = 0%Q) q srv _
            _ _ (retry_of s') _ _ _ Hbf (Forall_nil _) Hrun).
  intros r0 i Hr0. rewrite sleep_without_retry_after.
  - apply sleep_backoff_negative_factor. rewrite Hr0. exact Hq.
  - destruct (srv i) as [resp|e] eqn:Ei; [exact (Hno i resp Ei)|exact I].
Qed.

Lemma negative_backoff_factor_never_waits_witness :
  exists s eff r,
    SmartSession.__init__ []
      (SmartSession.mkArgs None (Some (-1)%Q) None None None None) = Ok s
    /\ SmartSession.request s "https://" "GET" None
         (always (Responds (HTTPResponse.mk 503 None None)))
       = Some (eff, Some r)
    /\ SmartSession.backoff_factor s = (-1)%Q
    /\ Forall (fun w => w = 0%Q) (waits r).
Proof.
  destruct (init_ok []
              (SmartSession.mkArgs None (Some (-1)%Q) None None None None))
    as (s & E & _).
  destruct (session_request_total _ _ _ "https://" "GET" None
              (always (Responds (HTTPResponse.mk 503 None None)))
              E (or_intror eq_refl)) as (eff & r & Hr).
  destruct (negative_backoff_factor_never_waits [] _ s (-1)%Q _ _ _ _ eff r
              E eq_refl eq_refl Hr) as [Hbf Hw].
  { intros i resp [= <-]. reflexivity. }
  exists s, eff, r. auto.
Defined.

(** ** A server that recovers *)

Section Recovers.

Variables (n : Z) (am : list string) (sf : list Z) (bf : Q).
Variables (bad good : HTTPResponse.t) (m : string) (srv : server).

Hypothesis n_pos : 0 < n.
Hypothesis method_listed : Py.in_str (Py.upper m) am = true.
Hypothesis bad_listed : Py.in_Z (HTTPResponse.status bad) sf = true.
Hypothesis bad_truthy : Py.truthy (HTTPResponse.status bad) = true.
Hypothesis bad_no_retry_after : HTTPResponse.retry_after bad = None.
Hypothesis bad_no_redirect : HTTPResponse.get_redirect_location bad = None.
Hypothesis good_unlisted : Py.in_Z (HTTPResponse.status good) sf = false.
Hypothesis good_no_retry_after :
  HTTPResponse.has_retry_after good
  && Py.in_Z (HTTPResponse.status good) Retry.RETRY_AFTER_STATUS_CODES = false.



End Recovers.

(** ** A server that cannot be reached *)

(** When neither [connect] nor [read] is below [total], the [Retry] is
    exhausted exactly when [total] is negative. *)
Lemma is_exhausted_counters t c r am sf bf ros rra h :
  t <= c -> t <= r ->
  Retry.is_exhausted
    (Retry.mk (Some t) (Some c) (Some r) None None None am sf bf ros rra h)
  = (t <? 0).
Proof.
  intros Hc Hr. unfold Retry.is_exhausted.
  cbn [Retry.total Retry.connect Retry.read Retry.redirect Retry.status
       Retry.other Retry.filter_counts].
  unfold Py.truthy, Py.Truthy_Z.
  destruct (Z.eqb_spec t 0), (Z.eqb_spec c 0), (Z.eqb_spec r 0);
    cbn [negb fold_left];
    repeat match goal with
           | |- context [?x <? ?y] => destruct (Z.ltb_spec x y)
           end;
    try reflexivity; lia.
Qed.

Section AlwaysFails.

Variables (am : list string) (sf : list Z) (bf : Q).
Variables (e : error) (m : string).

Hypothesis counted :
  Retry._is_connection_error e = true
  \/ Retry._is_read_error e = false
  \/ Py.in_str (Py.upper m) am = true.

Lemma failing_increment t c r h :
  t <= c -> t <= r ->
  exists c' r',
    t - 1 <= c' /\ t - 1 <= r'
    /\ Retry.increment
         (Retry.mk (Some t) (Some c) (Some r) None None None am sf bf
                   true true h) m None (Some e)
       = if t - 1 <? 0
         then Raise (MaxRetryError (ReasonError e))
         else Ok (Retry.mk (Some (t - 1)) (Some c') (Some r') None None None
                           am sf bf true true
                           (h ++ [Retry.mkHistory m (Some e) None None])%list).
Proof.
  intros Hc Hr. unfold Retry.increment. cbv zeta beta.
  cbn [Retry.total Retry.connect Retry.read Retry.redirect Retry.status
       Retry.other Retry.allowed_methods Retry.status_forcelist
       Retry.backoff_factor Retry.raise_on_status
       Retry.respect_retry_after_header Retry.history Retry.decr option_map].
  destruct (Retry._is_connection_error e) eqn:Ec.
  - exists (c - 1), r. split; [lia|]. split; [lia|].
    rewrite is_exhausted_counters by lia. reflexivity.
  - destruct (Retry._is_read_error e) eqn:Er.
    + assert (Hm : Retry._is_method_retryable
                     (Retry.mk (Some t) (Some c) (Some r) None None None
                               am sf bf true true h) m = true).
      { destruct counted as [H|[H|H]]; try discriminate H.
        unfold Retry._is_method_retryable. cbn [Retry.allowed_methods].
        rewrite H, andb_false_r. reflexivity. }
      rewrite Hm. cbn [negb].
      exists c, (r - 1). split; [lia|]. split; [lia|].
      rewrite is_exhausted_counters by lia. reflexivity.
    + exists c, r. split; [lia|]. split; [lia|].
      rewrite is_exhausted_counters by lia. reflexivity.
Qed.

(** From [total = t] on, [t + 1] more attempts fail, the backoff is
    slept between them, and [MaxRetryError] carries the error. *)
Lemma urlopen_always_fails (fuel : nat) : forall t c r h slept,
  0 <= t -> t <= c -> t <= r ->
  (Z.to_nat t < fuel)%nat ->
  Forall (fun x => Retry.h_redirect_location x = None) h ->
  urlopen fuel (always (Fails e)) m
    (Retry.mk (Some t) (Some c) (Some r) None None None am sf bf true true h)
    (List.length h) slept
  = Some (mkRun (Raise (MaxRetryError (ReasonError e)))
                (List.length h + S (Z.to_nat t))
                (slept ++ map (backoff_wait bf)
                              (seq (S (List.length h)) (Z.to_nat t)))%list).
Proof.
  induction fuel as [|fuel IH]; intros t c r h slept Ht Hc Hr Hfuel Hh; [lia|].
  cbn [urlopen]. unfold always at 1.
  destruct (failing_increment t c r h Hc Hr) as (c' & r' & Hc' & Hr' & ->).
  destruct (Z.ltb_spec (t - 1) 0) as [Hlast|Hmore].
  - replace t with 0 by lia. cbn [Z.to_nat seq map].
    rewrite app_nil_r. do 2 f_equal. lia.
  - set (h' := (h ++ [Retry.mkHistory m (Some e) None None])%list).
    assert (Hh' : Forall (fun x => Retry.h_redirect_location x = None) h').
    { apply Forall_app. split; [exact Hh|].
      constructor; [reflexivity|constructor]. }
    assert (Hlen : List.length h' = S (List.length h)).
    { unfold h'. rewrite length_app. cbn. lia. }
    cbn [Retry.sleep]. rewrite sleep_backoff_wait.
    rewrite consecutive_errors_all by exact Hh'.
    cbn [Retry.backoff_factor Retry.history]. rewrite <- Hlen.
    rewrite (IH (t - 1) c' r' h' _ ltac:(lia) Hc' Hr' ltac:(lia) Hh'), Hlen.
    replace (Z.to_nat t) with (S (Z.to_nat (t - 1))) by lia.
    cbn [seq map]. rewrite <- app_assoc. cbn [app].
    do 2 f_equal. lia.
Qed.

End AlwaysFails.

(** ** [Retry-After] *)


(** One turn of the attempt loop. *)
Lemma urlopen_unfold fuel srv m r made slept :
  urlopen (S fuel) srv m r made slept
  = match srv made with
    | Fails e =>
        match Retry.increment r m None (Some e) with
        | Raise x => Some (mkRun (Raise x) (S made) slept)
        | Ok r' =>
            urlopen fuel srv m r' (S made)
                    (slept ++ [Retry.sleep r' None])%list
        end
    | Responds response =>
        if Retry.is_retry r m (HTTPResponse.status response)
                          (HTTPResponse.has_retry_after response)
        then
          match Retry.increment r m (Some response) None with
          | Raise (MaxRetryError why) =>
              if Retry.raise_on_status r
              then Some (mkRun (Raise (MaxRetryError why)) (S made) slept)
              else Some (mkRun (Ok response) (S made) slept)
          | Raise x => Some (mkRun (Raise x) (S made) slept)
          | Ok r' =>
              urlopen fuel srv m r' (S made)
                      (slept ++ [Retry.sleep r' (Some response)])%list
          end
        else Some (mkRun (Ok response) (S made) slept)
    end.
Proof. reflexivity. Qed.

(** ** Retries that only [Retry-After] asks for *)


Section RetryAfterOnly.

Variables (n : Z) (am : list string) (sf : list Z) (bf : Q).
Variables (resp : HTTPResponse.t) (m : string) (d : Q).

Hypothesis n_pos : 0 < n.
Hypothesis method_listed : Py.in_str (Py.upper m) am = true.
Hypothesis status_unlisted : Py.in_Z (HTTPResponse.status resp) sf = false.
Hypothesis status_asks :
  Py.in_Z (HTTPResponse.status resp) Retry.RETRY_AFTER_STATUS_CODES = true.
Hypothesis delay : HTTPResponse.retry_after resp = Some d.
Hypothesis delay_pos : (0 < d)%Q.



End RetryAfterOnly.


(** * The session as requests drives it *)

(** ** The attributes assigned by the module *)

Lemma read_debuglevel_write (h : Heap.t) (w : Heap.assignment) o :
  assigns_debuglevel w = false ->
  module_object o = false ->
  Heap.read (Heap.write h w) o "debuglevel" = Heap.read h o "debuglevel".
Proof.
  destruct w as [[o' a'] v].
  unfold assigns_debuglevel. cbn [fst snd Heap.write Heap.read].
  intros Hw Ho.
  assert (E : Heap.obj_eqb o' o && String.eqb a' "debuglevel" = false).
  { destruct (module_object o') eqn:Ho'; cbn [negb andb] in Hw.
    - assert (Hne : Heap.obj_eqb o' o = false)
        by (destruct o', o; try reflexivity; discriminate).
      rewrite Hne. reflexivity.
    - rewrite Hw. apply andb_false_r. }
  rewrite E. reflexivity.
Qed.

Lemma read_debuglevel_writes (ws : list Heap.assignment) : forall h o,
  Forall (fun w => assigns_debuglevel w = false) ws ->
  module_object o = false ->
  Heap.read (Heap.writes h ws) o "debuglevel" = Heap.read h o "debuglevel".
Proof.
  unfold Heap.writes.
  induction ws as [|w ws IH]; intros h o Hws Ho; cbn [fold_left];
    [reflexivity|].
  inversion Hws as [|? ? Hw Hws']; subst.
  rewrite (IH _ _ Hws' Ho). apply read_debuglevel_write; assumption.
Qed.

(** No operation of the module assigns the [debuglevel] of the class
    [HTTPConnection] or of a connection: its assignments are on a
    session, an adapter, a [Retry] or the keywords of a call, and on
    other attributes of the connection that a request makes. *)
Lemma op_writes_leave_debuglevel dh (w : world) (op : operation) :
  Forall (fun x => assigns_debuglevel x = false) (op_writes dh w op).
Proof.
  destruct op as [a|i|i prefix ct]; cbn [op_writes].
  - destruct (SmartSession.__init__ dh a) as [s|x]; [|constructor].
    unfold init_writes, init_all_writes, retry_init_writes,
      adapter_init_writes.
    cbn [TimeoutHTTPAdapter.kw_timeout].
    repeat (apply Forall_app; split); repeat constructor.
  - destruct (nth_error (sessions w) i) as [s|]; [|constructor].
    destruct (SmartSession.init_all s) as [s'|x]; [|constructor].
    unfold init_all_writes, retry_init_writes, adapter_init_writes.
    cbn [TimeoutHTTPAdapter.kw_timeout].
    repeat (apply Forall_app; split); repeat constructor.
  - destruct (nth_error (sessions w) i) as [s|]; [|constructor].
    destruct (SmartSession.get (SmartSession.adapters s) prefix) as [ad|];
      [|constructor].
    apply Forall_app. split.
    + unfold send_writes. destruct ct; repeat constructor.
    + destruct (HTTPAdapter.valid_timeout _); [|constructor].
      unfold connection_init_writes. repeat constructor.
Qed.

(** The [debuglevel] of the class and of every connection is the same
    after an operation as before. *)
Lemma exec_frame dh (w : world) (op : operation) o :
  module_object o = false ->
  Heap.read (heap (exec dh w op)) o "debuglevel"
  = Heap.read (heap w) o "debuglevel".
Proof.
  intros Ho. cbn [exec heap].
  apply read_debuglevel_writes; [apply op_writes_leave_debuglevel|exact Ho].
Qed.

Lemma run_frame dh (ops : list operation) : forall w o,
  module_object o = false ->
  Heap.read (heap (fold_left (exec dh) ops w)) o "debuglevel"
  = Heap.read (heap w) o "debuglevel".
Proof.
  induction ops as [|op ops IH]; intros w o Ho; cbn [fold_left];
    [reflexivity|].
  rewrite (IH _ _ Ho). apply exec_frame. exact Ho.
Qed.

(** C10: importing the module assigns 1 to the class attribute
    [HTTPConnection.debuglevel], whatever the process held before.  No
    operation of the module (building a session, [init_all], a request)
    assigns it again, nor the [debuglevel] of a connection: after any
    sequence of them the class attribute is still 1, and every
    connection of the process that has no [debuglevel] of its own reads
    1 and so prints what it sends and receives. *)
Theorem C10_import_turns_debug_on_for_the_process dh h ops i :
  Heap.read (heap (run_module dh h ops)) Heap.HTTPConnection "debuglevel"
  = Some (Heap.VInt 1)
  /\ (Heap.read h (Heap.connection i) "debuglevel" = None ->
      Heap.getattr (heap (run_module dh h ops)) (Heap.connection i)
                   "debuglevel" = Some (Heap.VInt 1)
      /\ debug_on (heap (run_module dh h ops)) (Heap.connection i) = true).
Proof.
  assert (Hclass : Heap.read (heap (run_module dh h ops))
                     Heap.HTTPConnection "debuglevel" = Some (Heap.VInt 1)).
  { unfold run_module. rewrite run_frame by reflexivity. reflexivity. }
  split; [exact Hclass|]. intros Hnone.
  assert (Hinst : Heap.read (heap (run_module dh h ops))
                    (Heap.connection i) "debuglevel" = None).
  { unfold run_module. rewrite run_frame by reflexivity. exact Hnone. }
  unfold debug_on, Heap.getattr. rewrite Hinst, Hclass. split; reflexivity.
Qed.

Lemma C10_witness :
  Heap.getattr
    (heap (run_module []
             [(Heap.HTTPConnection, "debuglevel", Heap.VInt 0)]
             [Construct SmartSession.no_args; Request 0 "https://" None;
              InitAll 0]))
    (Heap.connection 1) "debuglevel" = Some (Heap.VInt 1)
  /\ debug_on
       (heap (run_module []
                [(Heap.HTTPConnection, "debuglevel", Heap.VInt 0)]
                [Construct SmartSession.no_args; Request 0 "https://" None;
                 InitAll 0]))
       (Heap.connection 1) = true.
Proof.
  apply (C10_import_turns_debug_on_for_the_process []
           [(Heap.HTTPConnection, "debuglevel", Heap.VInt 0)]
           [Construct SmartSession.no_args; Request 0 "https://" None;
            InitAll 0] 1%nat).
  reflexivity.
Defined.

(** ** From the attempt loop to the caller *)

Lemma upper_ascii_idempotent (c : ascii) :
  Py.upper_ascii (Py.upper_ascii c) = Py.upper_ascii c.
Proof.
  destruct c as [[] [] [] [] [] [] [] []]; reflexivity.
Qed.

(** Putting a name in capitals twice changes nothing more. *)
Lemma upper_idempotent (m : string) : Py.upper (Py.upper m) = Py.upper m.
Proof.
  induction m as [|c m IH]; cbn [Py.upper]; [reflexivity|].
  rewrite upper_ascii_idempotent, IH. reflexivity.
Qed.

(** A request through a constructed session is one send of the adapter
    on the session's [Retry], then the handling of a redirect. *)
Lemma session_request_unfold dh a s prefix m ct allow depth srv :
  SmartSession.__init__ dh a = Ok s ->
  mounted prefix ->
  Session.request s prefix m ct allow depth srv
  = Session.send allow
      (HTTPAdapter.send depth (retry_of s) (Py.upper m)
                        (effective_timeout s ct) srv).
Proof.
  intros [= <-] [-> | ->]; reflexivity.
Qed.

(** The same after [init_all] on any session. *)
Lemma init_all_session_request (self s : SmartSession.t)
    prefix m ct allow depth srv :
  SmartSession.init_all self = Ok s ->
  mounted prefix ->
  Session.request s prefix m ct allow depth srv
  = Session.send allow
      (HTTPAdapter.send depth (retry_of self) (Py.upper m)
                        (effective_timeout self ct) srv).
Proof.
  intros H Hp. unfold Session.request.
  rewrite (init_all_mounts _ _ _ H Hp). reflexivity.
Qed.

(** With a timeout that is accepted, the adapter gives what the loop
    gives, its exception translated. *)
Lemma adapter_send_run depth r m t srv out :
  HTTPAdapter.valid_timeout t = true ->
  urlopen depth srv m r 0 [] = Some out ->
  HTTPAdapter.send depth r m t srv
  = Done (match returned out with
          | Ok resp => Returns resp
          | Raise x => Raises (HTTPAdapter.translate x)
          end)
         (attempts out) (waits out).
Proof.
  intros Hv Hrun. unfold HTTPAdapter.send. rewrite Hv, Hrun. reflexivity.
Qed.


(** A listed method in capitals is listed. *)
Lemma listed_upper (m : string) (l : list string) :
  Py.in_str (Py.upper m) l = true ->
  Py.in_str (Py.upper (Py.upper m)) l = true.
Proof. rewrite upper_idempotent. exact (fun H => H). Qed.

Lemma retry_of_state (s : SmartSession.t) :
  retry_of s
  = retry_state (SmartSession.num_retries s)
      (SmartSession.method_whitelist s)
      (Py.or_default (Some (SmartSession.status_forcelist s)) [])
      (SmartSession.backoff_factor s) (SmartSession.num_retries s) [].
Proof. reflexivity. Qed.

(** A listed method on a server that always answers with the same
    listed status, without [Retry-After]: the retries, 1024 at most, are
    used up and the caller gets [RetryError]. *)
Lemma session_always_retried dh a s prefix m ct allow depth resp :
  SmartSession.__init__ dh a = Ok s ->
  mounted prefix ->
  Py.in_str (Py.upper m) (SmartSession.method_whitelist s) = true ->
  Py.in_Z (HTTPResponse.status resp) (SmartSession.status_forcelist s) = true ->
  Py.truthy (HTTPResponse.status resp) = true ->
  HTTPResponse.retry_after resp = None ->
  HTTPResponse.get_redirect_location resp = None ->
  1 <= SmartSession.num_retries s <= 1024 ->
  HTTPAdapter.valid_timeout (effective_timeout s ct) = true ->
  (Z.to_nat (SmartSession.num_retries s) < depth)%nat ->
  Session.request s prefix m ct allow depth (always (Responds resp))
  = Done (Raises (Requests.RetryError
                    (SPECIFIC_ERROR (HTTPResponse.status resp))))
         (S (Z.to_nat (SmartSession.num_retries s)))
         (map (backoff_wait (SmartSession.backoff_factor s))
              (seq 1 (Z.to_nat (SmartSession.num_retries s)))).
Proof.
  intros Hs Hp Hm Hst Htr Hra Hred Hn Hv Hd.
  rewrite (session_request_unfold _ _ _ _ m ct allow depth _ Hs Hp).
  assert (Hst' : Py.in_Z (HTTPResponse.status resp)
                   (Py.or_default (Some (SmartSession.status_forcelist s)) [])
                 = true) by (rewrite in_or_default_list; exact Hst).
  rewrite retry_of_state.
  rewrite (adapter_send_run _ _ _ _ _ _ Hv
             (urlopen_always_retried (SmartSession.num_retries s) _ _
                (SmartSession.backoff_factor s) resp (Py.upper m)
                ltac:(lia) (listed_upper _ _ Hm) Hst' Htr Hra Hred
                depth (SmartSession.num_retries s) [] []
                ltac:(lia) Hd (Forall_nil _))).
  reflexivity.
Qed.

(** ** Exhaustion *)

(** C1, as stated, fails on the count: with [num_retries = 3] the
    session makes four attempts, not three, on a [GET] that always meets
    503. *)
Lemma C1_counterexample :
  ~ (forall s,
       SmartSession.__init__ []
         (SmartSession.mkArgs (Some 3) None None None None None) = Ok s ->
       exists x w,
         Session.request s "https://" "GET" None true 1000
           (always (Responds (HTTPResponse.mk 503 None None)))
         = Done (Raises x) 3 w).
Proof.
  intros H.
  destruct (init_ok []
              (SmartSession.mkArgs (Some 3) None None None None None))
    as (s & E & _).
  destruct (H s E) as (x & w & Hr). revert Hr.
  injection E as <-. vm_compute. discriminate.
Qed.

(** C1, as amended: [num_retries = 3] allows three retries after the
    first attempt.  A request with a listed method (an ASCII name), with
    a timeout that is unset or positive, to a server that always answers
    503 (listed, no [Retry-After]) is attempted four times, with three
    waits in between, and ends with the [RetryError] that requests makes
    of urllib3's [MaxRetryError].  The length of each wait is left
    open. *)
Theorem C1_three_retries_make_four_attempts
    dh bf sf mw t ua s prefix m ct allow depth loc :
  SmartSession.__init__ dh (SmartSession.mkArgs (Some 3) bf sf mw t ua) = Ok s ->
  mounted prefix ->
  is_ascii m = true ->
  Py.in_str (Py.upper m) (SmartSession.method_whitelist s) = true ->
  Py.in_Z 503 (SmartSession.status_forcelist s) = true ->
  HTTPAdapter.valid_timeout (effective_timeout s ct) = true ->
  (3 < depth)%nat ->
  exists w,
    Session.request s prefix m ct allow depth
      (always (Responds (HTTPResponse.mk 503 None loc)))
    = Done (Raises (Requests.RetryError (SPECIFIC_ERROR 503))) 4 w
    /\ List.length w = 3%nat.
Proof.
  intros Hs Hp _ Hm Hst Hv Hd.
  destruct (init_ok dh (SmartSession.mkArgs (Some 3) bf sf mw t ua))
    as (s' & E & Hn & _).
  rewrite E in Hs. injection Hs as <-. cbn in Hn.
  rewrite (session_always_retried _ _ _ _ m ct allow depth
             (HTTPResponse.mk 503 None loc) E Hp Hm Hst eq_refl eq_refl
             eq_refl ltac:(rewrite Hn; split; discriminate) Hv
             ltac:(rewrite Hn; exact Hd)).
  rewrite Hn. eexists. split; reflexivity.
Qed.

Lemma C1_witness :
  exists s w,
    SmartSession.__init__ []
      (SmartSession.mkArgs (Some 3) None None None (Some 10%Q) None) = Ok s
    /\ Session.request s "https://" "get" None true 1000
         (always (Responds (HTTPResponse.mk 503 None None)))
       = Done (Raises (Requests.RetryError (SPECIFIC_ERROR 503))) 4 w
    /\ List.length w = 3%nat.
Proof.
  destruct (init_ok []
              (SmartSession.mkArgs (Some 3) None None None (Some 10%Q) None))
    as (s & E & _ & _ & Hsf & Hmw & Ht & _).
  assert (Hm : Py.in_str (Py.upper "get") (SmartSession.method_whitelist s)
               = true) by (rewrite Hmw; reflexivity).
  assert (Hst : Py.in_Z 503 (SmartSession.status_forcelist s) = true)
    by (rewrite Hsf; reflexivity).
  assert (Hv : HTTPAdapter.valid_timeout (effective_timeout s None) = true)
    by (cbn [effective_timeout]; rewrite Ht; reflexivity).
  destruct (C1_three_retries_make_four_attempts [] None None None
              (Some 10%Q) None s "https://" "get" None true 1000 None
              E (or_intror eq_refl) eq_refl Hm Hst Hv
              ltac:(apply Nat.ltb_lt; reflexivity)) as (w & Hr & Hw).
  exists s, w. auto.
Defined.

(** ** Construction never rejects its arguments *)

(** C4, as amended: the constructor checks nothing and always returns.
    A [num_retries] of 0 is replaced by the default 5; a negative one is
    kept, and shows only when a request is made: with a timeout that is
    unset or positive the first attempt is sent, and a failure to
    connect on it ends the request, after that one attempt, with the
    exception that requests makes of urllib3's [MaxRetryError]. *)
Theorem C4_construction_validates_nothing dh n bf sf mw t ua :
  n < 1 ->
  exists s,
    SmartSession.__init__ dh (SmartSession.mkArgs (Some n) bf sf mw t ua) = Ok s
    /\ SmartSession.num_retries s
       = (if n =? 0 then SmartSession.NUM_RETRIES else n)
    /\ (n < 0 ->
        forall prefix m ct allow depth srv e,
          mounted prefix ->
          HTTPAdapter.valid_timeout (effective_timeout s ct) = true ->
          (0 < depth)%nat ->
          srv 0%nat = Fails e ->
          Retry._is_connection_error e = true ->
          Session.request s prefix m ct allow depth srv
          = Done (Raises (HTTPAdapter.translate
                            (MaxRetryError (ReasonError e))))
                 1 []).
Proof.
  intros Hn.
  destruct (init_ok dh (SmartSession.mkArgs (Some n) bf sf mw t ua))
    as (s & E & Hnum & _).
  exists s. split; [exact E|].
  assert (Hnum' : SmartSession.num_retries s
                  = (if n =? 0 then SmartSession.NUM_RETRIES else n)).
  { rewrite Hnum. cbn. unfold Py.truthy, Py.Truthy_Z.
    destruct (n =? 0); reflexivity. }
  split; [exact Hnum'|].
  intros Hneg prefix m ct allow depth srv e Hp Hv Hd Hsrv He.
  rewrite (session_request_unfold _ _ _ _ m ct allow depth srv E Hp).
  destruct depth as [|depth]; [lia|].
  assert (Hrun : urlopen (S depth) srv (Py.upper m) (retry_of s) 0 []
                 = Some (mkRun (Raise (MaxRetryError (ReasonError e))) 1 [])).
  { rewrite urlopen_unfold, Hsrv.
    rewrite (increment_connection_error_exhausted _ _ _
               (SmartSession.num_retries s));
      [reflexivity|reflexivity| |exact He].
    rewrite Hnum'. destruct (Z.eqb_spec n 0); lia. }
  rewrite (adapter_send_run _ _ _ _ _ _ Hv Hrun). reflexivity.
Qed.

Lemma C4_witness :
  exists s,
    SmartSession.__init__ []
      (SmartSession.mkArgs (Some (-1)) None None None None None) = Ok s
    /\ SmartSession.num_retries s = -1
    /\ Session.request s "https://" "GET" None true 1000
         (always (Fails NewConnectionError))
       = Done (Raises Requests.ConnectionError) 1 [].
Proof.
  destruct (C4_construction_validates_nothing [] (-1) None None None None None
              ltac:(lia)) as (s & E & Hnum & Hreq).
  exists s. split; [exact E|]. split; [exact Hnum|].
  apply (Hreq ltac:(lia) "https://" "GET" None true 1000%nat
           (always (Fails NewConnectionError)) NewConnectionError
           (or_intror eq_refl)).
  - injection E as <-. reflexivity.
  - apply Nat.ltb_lt. reflexivity.
  - reflexivity.
  - reflexivity.
Defined.

(** ** The backoff *)

(** C5: the waits of the default session on a [GET] that always meets
    503.  Nothing is slept before the first retry, where the claim, and
    the formula of the comment above [BACKOFF_FACTOR], give the factor
    itself; from the second retry on the wait is the factor times
    [2^(k-1)] after [k] failures. *)
Theorem C5_first_retry_waits_nothing depth :
  (5 < depth)%nat ->
  exists s,
    SmartSession.__init__ [] SmartSession.no_args = Ok s
    /\ Session.request s "https://" "GET" None true depth
         (always (Responds (HTTPResponse.mk 503 None None)))
       = Done (Raises (Requests.RetryError (SPECIFIC_ERROR 503))) 6
              [0%Q; 0.6%Q; 1.2%Q; 2.4%Q; 4.8%Q]
    /\ ~ (0 == backoffDuration_spec (SmartSession.backoff_factor s) 1)%Q.
Proof.
  intros Hd.
  destruct (init_ok [] SmartSession.no_args)
    as (s & E & Hn & Hb & Hsf & Hmw & Ht & _).
  cbn in Hn, Hb, Hsf, Hmw, Ht.
  exists s. split; [exact E|]. split.
  - rewrite (session_always_retried _ _ _ "https://" "GET" None true depth
               (HTTPResponse.mk 503 None None) E (or_intror eq_refl)).
    + rewrite Hn, Hb. reflexivity.
    + rewrite Hmw. reflexivity.
    + rewrite Hsf. reflexivity.
    + reflexivity.
    + reflexivity.
    + reflexivity.
    + rewrite Hn. split; discriminate.
    + cbn [effective_timeout]. rewrite Ht. reflexivity.
    + rewrite Hn. exact Hd.
  - rewrite Hb. discriminate.
Qed.

Lemma C5_witness :
  exists s,
    SmartSession.__init__ [] SmartSession.no_args = Ok s
    /\ Session.request s "https://" "GET" None true 1000
         (always (Responds (HTTPResponse.mk 503 None None)))
       = Done (Raises (Requests.RetryError (SPECIFIC_ERROR 503))) 6
              [0%Q; 0.6%Q; 1.2%Q; 2.4%Q; 4.8%Q]
    /\ ~ (0 == backoffDuration_spec (SmartSession.backoff_factor s) 1)%Q.
Proof.
  apply (C5_first_retry_waits_nothing 1000).
  apply Nat.ltb_lt. reflexivity.
Defined.

(** ** Which outcomes are final *)







(** ** One send of the session, as the caller sees it *)

(** After the adapter has sent, the session changes neither the number
    of attempts nor the waits. *)
Lemma send_keeps_counts allow a k w :
  exists a', Session.send allow (Done a k w) = Done a' k w.
Proof.
  unfold Session.send. destruct a as [resp|resp target|x]; eauto.
  destruct (Session.get_redirect_target resp); eauto.
  destruct (Session.follows allow resp); eauto.
Qed.


(** A timeout that is not positive is refused. *)
Lemma nonpositive_timeout_invalid (v : Q) :
  (v <= 0)%Q -> HTTPAdapter.valid_timeout (Some v) = false.
Proof.
  intros H. unfold HTTPAdapter.valid_timeout.
  apply Qle_bool_iff in H. rewrite H. reflexivity.
Qed.

(** ** The timeout and the two prefixes *)

(** After [init_all], hence after construction, a request under
    ["http://"] and the same request under ["https://"] end alike, the
    adapter being the same.  Neither the constructor nor [init_all]
    looks at the timeout: when the timeout of the call, or without one
    the session's, is zero or negative, the request raises [ValueError]
    before any attempt is made. *)
Theorem both_prefixes_send_alike_and_refuse_a_timeout_not_positive
    (self s : SmartSession.t) m ct allow depth srv :
  SmartSession.init_all self = Ok s ->
  Session.request s "http://" m ct allow depth srv
  = Session.request s "https://" m ct allow depth srv
  /\ (forall v prefix,
        mounted prefix ->
        effective_timeout self ct = Some v ->
        (v <= 0)%Q ->
        Session.request s prefix m ct allow depth srv
        = Done (Raises Requests.ValueError) 0 []).
Proof.
  intros H. split.
  - rewrite (init_all_session_request _ _ _ m ct allow depth srv H
               (or_introl eq_refl)).
    rewrite (init_all_session_request _ _ _ m ct allow depth srv H
               (or_intror eq_refl)).
    reflexivity.
  - intros v prefix Hp Hv Hle.
    rewrite (init_all_session_request _ _ _ m ct allow depth srv H Hp).
    unfold HTTPAdapter.send.
    rewrite Hv, (nonpositive_timeout_invalid v Hle). reflexivity.
Qed.

Lemma both_prefixes_send_alike_and_refuse_a_timeout_not_positive_witness :
  exists s,
    SmartSession.__init__ []
      (SmartSession.mkArgs None None None None (Some 0%Q) None) = Ok s
    /\ Session.request s "http://" "GET" None true 1000
         (always (Responds (HTTPResponse.mk 200 None None)))
       = Done (Raises Requests.ValueError) 0 []
    /\ Session.request s "https://" "GET" (Some (-1)%Q) true 1000
         (always (Responds (HTTPResponse.mk 200 None None)))
       = Done (Raises Requests.ValueError) 0 [].
Proof.
  destruct (init_ok []
              (SmartSession.mkArgs None None None None (Some 0%Q) None))
    as (s & E & _).
  exists s. split; [exact E|]. split.
  - apply (proj2 (both_prefixes_send_alike_and_refuse_a_timeout_not_positive
                    _ s "GET" None true 1000
                    (always (Responds (HTTPResponse.mk 200 None None))) E)
             0%Q "http://" (or_introl eq_refl)).
    + reflexivity.
    + discriminate.
  - apply (proj2 (both_prefixes_send_alike_and_refuse_a_timeout_not_positive
                    _ s "GET" (Some (-1)%Q) true 1000
                    (always (Responds (HTTPResponse.mk 200 None None))) E)
             (-1)%Q "https://" (or_intror eq_refl)).
    + reflexivity.
    + discriminate.
Defined.

(** ** The bound on one send *)



(** ** A server that recovers *)



(** ** A server that cannot be reached *)

(** When every attempt fails below HTTP with the same error, and the
    error is one the method allows to retry (a failure to connect or an
    SSL error for any method, a read error for a listed method), the
    session makes [num_retries + 1] attempts and sleeps the backoff
    between them; the caller is raised what requests makes of
    [MaxRetryError] with that error as its reason: [ConnectTimeout],
    [SSLError], and [ConnectionError] for the others.  This for a
    timeout that is unset or positive, a method with an ASCII name and
    [num_retries] from 0 to 1024 and below the depth of calls
    allowed. *)
Theorem send_gives_up_on_a_persistent_error
    dh a s prefix m ct allow depth e :
  SmartSession.__init__ dh a = Ok s ->
  mounted prefix ->
  is_ascii m = true ->
  0 <= SmartSession.num_retries s <= 1024 ->
  (Z.to_nat (SmartSession.num_retries s) < depth)%nat ->
  HTTPAdapter.valid_timeout (effective_timeout s ct) = true ->
  Retry._is_connection_error e = true
  \/ Retry._is_read_error e = false
  \/ Py.in_str (Py.upper m) (SmartSession.method_whitelist s) = true ->
  Session.request s prefix m ct allow depth (always (Fails e))
  = Done (Raises (HTTPAdapter.translate (MaxRetryError (ReasonError e))))
         (S (Z.to_nat (SmartSession.num_retries s)))
         (map (backoff_wait (SmartSession.backoff_factor s))
              (seq 1 (Z.to_nat (SmartSession.num_retries s)))).
Proof.
  intros Hs Hp _ Hn Hd Hv He.
  rewrite (session_request_unfold _ _ _ _ m ct allow depth _ Hs Hp).
  assert (He' : Retry._is_connection_error e = true
                \/ Retry._is_read_error e = false
                \/ Py.in_str (Py.upper (Py.upper m))
                     (SmartSession.method_whitelist s) = true)
    by (rewrite upper_idempotent; exact He).
  unfold retry_of.
  rewrite (adapter_send_run _ _ _ _ _ _ Hv
             (urlopen_always_fails (SmartSession.method_whitelist s)
                (Py.or_default (Some (SmartSession.status_forcelist s)) [])
                (SmartSession.backoff_factor s) e (Py.upper m) He'
                depth (SmartSession.num_retries s)
                (SmartSession.num_retries s) (SmartSession.num_retries s)
                [] [] (proj1 Hn) ltac:(lia) ltac:(lia) Hd (Forall_nil _))).
  reflexivity.
Qed.

Lemma send_gives_up_on_a_persistent_error_witness :
  exists s,
    SmartSession.__init__ []
      (SmartSession.mkArgs (Some 2) None None None None None) = Ok s
    /\ Session.request s "http://" "GET" None true 1000
         (always (Fails ReadTimeoutError))
       = Done (Raises Requests.ConnectionError) 3
              (map (backoff_wait (SmartSession.backoff_factor s)) (seq 1 2)).
Proof.
  destruct (init_ok []
              (SmartSession.mkArgs (Some 2) None None None None None))
    as (s & E & Hn & _ & _ & Hmw & Ht & _).
  cbn in Hn, Ht.
  exists s. split; [exact E|].
  assert (Hv : HTTPAdapter.valid_timeout (effective_timeout s None) = true)
    by (cbn [effective_timeout]; rewrite Ht; reflexivity).
  assert (Hb : 0 <= SmartSession.num_retries s <= 1024)
    by (rewrite Hn; split; discriminate).
  assert (Hd : (Z.to_nat (SmartSession.num_retries s) < 1000)%nat)
    by (rewrite Hn; apply Nat.ltb_lt; reflexivity).
  assert (He : Retry._is_connection_error ReadTimeoutError = true
               \/ Retry._is_read_error ReadTimeoutError = false
               \/ Py.in_str (Py.upper "GET")
                    (SmartSession.method_whitelist s) = true)
    by (right; right; rewrite Hmw; reflexivity).
  pose proof (send_gives_up_on_a_persistent_error [] _ s "http://" "GET" None
                true 1000 ReadTimeoutError E (or_introl eq_refl) eq_refl
                Hb Hd Hv He) as H.
  rewrite Hn in H. exact H.
Defined.

(** ** [Retry-After] *)





(** ** [init_all] reads the attributes as they are *)

(** Unlike the constructor, [init_all] takes [num_retries] as it finds
    it: with the attribute at zero or below, a send with a timeout that
    is unset or positive makes exactly one attempt and never waits,
    whatever the server does. *)
Theorem init_all_with_no_retries_sends_once
    (self s : SmartSession.t) prefix m ct allow depth srv :
  SmartSession.init_all self = Ok s ->
  mounted prefix ->
  SmartSession.num_retries self <= 0 ->
  HTTPAdapter.valid_timeout (effective_timeout self ct) = true ->
  (0 < depth)%nat ->
  exists ans,
    Session.request s prefix m ct allow depth srv = Done ans 1 [].
Proof.
  intros H Hp Hn Hv Hd.
  rewrite (init_all_session_request _ _ _ m ct allow depth srv H Hp).
  destruct (urlopen_total depth srv (Py.upper m) (retry_of self) 0%nat []
              (SmartSession.num_retries self) eq_refl) as [out Hout]; [lia|].
  pose proof (urlopen_attempts_bound _ _ _ (retry_of self) _ _
                (SmartSession.num_retries self) _ eq_refl Hout) as Hb.
  pose proof (urlopen_waits_count _ _ _ _ _ _ _ Hout) as Hc.
  assert (Ha : attempts out = 1%nat) by lia.
  assert (Hw : waits out = []).
  { rewrite Ha in Hc. cbn in Hc.
    destruct (waits out); [reflexivity|cbn in Hc; lia]. }
  rewrite (adapter_send_run _ _ _ _ _ _ Hv Hout), Ha, Hw.
  apply send_keeps_counts.
Qed.

Lemma init_all_with_no_retries_sends_once_witness :
  exists s ans,
    SmartSession.init_all
      (SmartSession.mk 0 0.3%Q [503] ["GET"] None "agent" None [] []) = Ok s
    /\ Session.request s "https://" "GET" None true 1000
         (always (Responds (HTTPResponse.mk 503 None None)))
       = Done ans 1 [].
Proof.
  destruct (init_all_ok
              (SmartSession.mk 0 0.3%Q [503] ["GET"] None "agent" None [] []))
    as (s & E & _).
  destruct (init_all_with_no_retries_sends_once _ s "https://" "GET" None
              true 1000 (always (Responds (HTTPResponse.mk 503 None None)))
              E (or_intror eq_refl) ltac:(cbn; lia) eq_refl
              ltac:(apply Nat.ltb_lt; reflexivity)) as (ans & Hr).
  exists s, ans. auto.
Defined.




